(** * TilingWindowManager: the Python IPC example clients

    A shallow embedding of the four scripts under [examples/ipc/python]:

    - [window_monitor.py] and [auto_tiler.py], the streaming clients that
      read one JSON event per line from [twm ... listen];
    - [window_info.py] and [workspace_status.py], the one-shot command
      clients that run [twm], wait for it and decode one response envelope.

    Python values that come out of [json.loads] are the type [json]; a
    Python [str] is a [string] holding its UTF-8 bytes; [print] appends a
    record to an output log; exceptions and early [return] are threaded by
    the monad [M].

    Outside the model: the limits of the interpreter (recursion depth,
    the length of an integer literal), a [print] that fails, the decoding
    of the child's bytes into text, and the numeric value of a float
    beyond whether it is zero. *)

From Stdlib Require Import String Ascii List ZArith Bool Lia.
Import ListNotations.

Local Open Scope string_scope.
Local Open Scope list_scope.

(* ================================================================== *)
(** * Python values decoded from JSON *)
(* ================================================================== *)

(** What [json.loads] can return.  An integer literal becomes a Python
    [int]; a literal with a fraction or an exponent (and [NaN],
    [Infinity], [-Infinity]) becomes a Python [float], which is kept here
    as the text of the literal: no script computes with it.  A [dict]
    keeps its keys in insertion order. *)
#[warnings="-register-all"]
Inductive json : Type :=
| JNull
| JBool (b : bool)
| JInt (n : Z)
| JFloat (literal : string)
| JStr (s : string)
| JList (items : list json)
| JDict (fields : list (string * json)).

(** [d[key]] when present. *)
Fixpoint lookup (key : string) (fields : list (string * json)) : option json :=
  match fields with
  | [] => None
  | (k, v) :: rest => if String.eqb k key then Some v else lookup key rest
  end.

(** [d[key] = v]: an existing key keeps its position, a new key goes last. *)
Fixpoint dict_set (fields : list (string * json)) (key : string) (v : json)
  : list (string * json) :=
  match fields with
  | [] => [(key, v)]
  | (k, w) :: rest =>
      if String.eqb k key then (k, v) :: rest else (k, w) :: dict_set rest key v
  end.

(** [v == s] for a decoded value [v] and a [str] constant [s]: only a
    string compares equal to a string. *)
Definition eq_str (v : json) (s : string) : bool :=
  match v with
  | JStr t => String.eqb t s
  | _ => false
  end.

(* ================================================================== *)
(** * [str.strip()] *)
(* ================================================================== *)

(** The white space of Python's [str.isspace], which [str.strip()]
    removes at both ends, in the UTF-8 bytes of the text.

    One byte: U+0009 to U+000D, U+001C to U+001F and the space U+0020. *)
Definition space1 (a : ascii) : bool :=
  let n := nat_of_ascii a in
  ((9 <=? n) && (n <=? 13) || (28 <=? n) && (n <=? 32))%nat%bool.

(** Two bytes: U+0085 (C2 85) and U+00A0 (C2 A0). *)
Definition space2 (a b : ascii) : bool :=
  let m := nat_of_ascii a in
  let n := nat_of_ascii b in
  ((m =? 194) && ((n =? 133) || (n =? 160)))%nat%bool.

(** Three bytes: U+1680 (E1 9A 80), U+2000 to U+200A (E2 80 80 to
    E2 80 8A), U+2028 and U+2029 (E2 80 A8, E2 80 A9), U+202F
    (E2 80 AF), U+205F (E2 81 9F) and U+3000 (E3 80 80). *)
Definition space3 (a b c : ascii) : bool :=
  let l := nat_of_ascii a in
  let m := nat_of_ascii b in
  let n := nat_of_ascii c in
  ((l =? 225) && (m =? 154) && (n =? 128)
   || (l =? 226) && (m =? 128)
      && ((128 <=? n) && (n <=? 138) || (n =? 168) || (n =? 169) || (n =? 175))
   || (l =? 226) && (m =? 129) && (n =? 159)
   || (l =? 227) && (m =? 128) && (n =? 128))%nat%bool.

(** [ch.isspace()] for a text [ch] of one character. *)
Definition isspace (ch : string) : bool :=
  match ch with
  | String a EmptyString => space1 a
  | String a (String b EmptyString) => space2 a b
  | String a (String b (String c EmptyString)) => space3 a b c
  | _ => false
  end.

(** [s.lstrip()]: the white space characters at the head go. *)
Fixpoint lstrip (s : string) : string :=
  match s with
  | EmptyString => EmptyString
  | String a rest =>
      if space1 a then lstrip rest
      else
        match rest with
        | EmptyString => s
        | String b rest' =>
            if space2 a b then lstrip rest'
            else
              match rest' with
              | EmptyString => s
              | String c rest'' => if space3 a b c then lstrip rest'' else s
              end
        end
  end.

(** [s.rstrip()]: the white space characters at the tail go.  A lead
    byte of UTF-8 starts a character wherever it stands, so what is left
    of a white space character after the tail behind it went is that
    character whole. *)
Fixpoint rstrip (s : string) : string :=
  match s with
  | EmptyString => EmptyString
  | String a rest =>
      let kept := String a (rstrip rest) in
      if isspace kept then EmptyString else kept
  end.

Definition strip (s : string) : string := rstrip (lstrip s).

(** The text starts with a white space character. *)
Definition starts_space (s : string) : bool :=
  match s with
  | EmptyString => false
  | String a rest =>
      space1 a
      || match rest with
         | EmptyString => false
         | String b rest' =>
             space2 a b
             || match rest' with
                | EmptyString => false
                | String c _ => space3 a b c
                end
         end
  end.

(** A line made of white space only. *)
Fixpoint whitespace_only (s : string) : bool :=
  match s with
  | EmptyString => true
  | String a rest =>
      if space1 a then whitespace_only rest
      else
        match rest with
        | EmptyString => false
        | String b rest' =>
            if space2 a b then whitespace_only rest'
            else
              match rest' with
              | EmptyString => false
              | String c rest'' => space3 a b c && whitespace_only rest''
              end
        end
  end.

(* ================================================================== *)
(** * [json.loads] *)
(* ================================================================== *)

(** The decoder of the Python standard library, after [json/decoder.py]
    and [json/scanner.py]: recursive descent over the characters, with
    the library's leniencies ([NaN], [Infinity]) and strictness (no
    control character inside a string, no trailing comma).  The recursion
    on nested values is by fuel; [json_loads] supplies enough of it. *)
Module Decoder.

Local Open Scope char_scope.

Inductive outcome (A : Type) : Type :=
| Parsed (a : A)
| Invalid         (* the input is not JSON: [JSONDecodeError] *)
| OutOfFuel.
Arguments Parsed {A} a.
Arguments Invalid {A}.
Arguments OutOfFuel {A}.

(** JSON white space: space, tab, line feed, carriage return. *)
Definition is_ws (c : ascii) : bool :=
  (Ascii.eqb c " " || Ascii.eqb c "009" || Ascii.eqb c "010" || Ascii.eqb c "013")%bool.

Fixpoint skip_ws (cs : list ascii) : list ascii :=
  match cs with
  | c :: rest => if is_ws c then skip_ws rest else cs
  | [] => []
  end.

Definition is_digit (c : ascii) : bool :=
  let n := nat_of_ascii c in ((48 <=? n) && (n <=? 57))%nat%bool.

Definition digit_val (c : ascii) : Z := Z.of_nat (nat_of_ascii c) - 48.

Definition hex_val (c : ascii) : option Z :=
  let n := nat_of_ascii c in
  if ((48 <=? n) && (n <=? 57))%nat%bool then Some (Z.of_nat n - 48)%Z
  else if ((65 <=? n) && (n <=? 70))%nat%bool then Some (Z.of_nat n - 55)%Z
  else if ((97 <=? n) && (n <=? 102))%nat%bool then Some (Z.of_nat n - 87)%Z
  else None.

(** [cs] starts with [word]: the rest after it. *)
Fixpoint expect (word cs : list ascii) : option (list ascii) :=
  match word, cs with
  | [], _ => Some cs
  | w :: word', c :: cs' => if Ascii.eqb w c then expect word' cs' else None
  | _ :: _, [] => None
  end.

(** The longest prefix of digits, and what follows. *)
Fixpoint digits (cs : list ascii) : list ascii * list ascii :=
  match cs with
  | c :: rest =>
      if is_digit c then let (ds, r) := digits rest in (c :: ds, r)
      else ([], cs)
  | [] => ([], [])
  end.

Definition int_of_digits (ds : list ascii) : Z :=
  fold_left (fun acc c => (10 * acc + digit_val c)%Z) ds 0%Z.

Definition byte (z : Z) : ascii := ascii_of_nat (Z.to_nat z).

(** UTF-8 bytes of a code point (a lone surrogate is written in the
    same three-byte form). *)
Definition utf8 (u : Z) : list ascii :=
  if (u <? 128)%Z then [byte u]
  else if (u <? 2048)%Z then
    [byte (192 + u / 64); byte (128 + u mod 64)]
  else if (u <? 65536)%Z then
    [byte (224 + u / 4096); byte (128 + (u / 64) mod 64); byte (128 + u mod 64)]
  else
    [byte (240 + u / 262144); byte (128 + (u / 4096) mod 64);
     byte (128 + (u / 64) mod 64); byte (128 + u mod 64)].

(** Four hexadecimal digits. *)
Definition hex4 (cs : list ascii) : option (Z * list ascii) :=
  match cs with
  | a :: b :: c :: d :: rest =>
      match hex_val a, hex_val b, hex_val c, hex_val d with
      | Some x, Some y, Some z, Some w =>
          Some ((((x * 16 + y) * 16 + z) * 16 + w)%Z, rest)
      | _, _, _, _ => None
      end
  | _ => None
  end.

(** The code point of a [\u] escape whose four digits gave [u], joining
    a surrogate pair when a low surrogate escape follows a high one. *)
Definition unicode_escape (u : Z) (rest : list ascii) : Z * list ascii :=
  if ((55296 <=? u) && (u <=? 56319))%Z%bool then
    match rest with
    | b :: l :: rest' =>
        if (Ascii.eqb b "\" && Ascii.eqb l "u")%bool then
          match hex4 rest' with
          | Some (u2, rest'') =>
              if ((56320 <=? u2) && (u2 <=? 57343))%Z%bool
              then ((65536 + ((u - 55296) * 1024 + (u2 - 56320)))%Z, rest'')
              else (u, rest)
          | None => (u, rest)
          end
        else (u, rest)
    | _ => (u, rest)
    end
  else (u, rest).

(** The text decoded so far goes in front of what the rest gives. *)
Definition prepend (pre : list ascii) (o : outcome (list ascii * list ascii))
  : outcome (list ascii * list ascii) :=
  match o with
  | Parsed (s, r) => Parsed (pre ++ s, r)
  | Invalid => Invalid
  | OutOfFuel => OutOfFuel
  end.

(** [scanstring] in strict mode, from just after the opening quote:
    the decoded text and the input after the closing quote.  The fuel
    only counts characters, so the length of the input is enough. *)
Fixpoint scanstring (fuel : nat) (cs : list ascii) : outcome (list ascii * list ascii) :=
  match fuel with
  | O => OutOfFuel
  | S fuel' =>
      match cs with
      | [] => Invalid                                  (* unterminated *)
      | c :: rest =>
          if Ascii.eqb c "034" then Parsed ([], rest)
          else if Ascii.eqb c "\" then
            match rest with
            | [] => Invalid
            | e :: rest' =>
                if Ascii.eqb e "034" then prepend ["034"] (scanstring fuel' rest')
                else if Ascii.eqb e "\" then prepend ["\"] (scanstring fuel' rest')
                else if Ascii.eqb e "/" then prepend ["/"] (scanstring fuel' rest')
                else if Ascii.eqb e "b" then prepend ["008"] (scanstring fuel' rest')
                else if Ascii.eqb e "f" then prepend ["012"] (scanstring fuel' rest')
                else if Ascii.eqb e "n" then prepend ["010"] (scanstring fuel' rest')
                else if Ascii.eqb e "r" then prepend ["013"] (scanstring fuel' rest')
                else if Ascii.eqb e "t" then prepend ["009"] (scanstring fuel' rest')
                else if Ascii.eqb e "u" then
                  match hex4 rest' with
                  | Some (u, after) =>
                      let (cp, after') := unicode_escape u after in
                      prepend (utf8 cp) (scanstring fuel' after')
                  | None => Invalid
                  end
                else Invalid                           (* invalid escape *)
            end
          else if (nat_of_ascii c <? 32)%nat then Invalid  (* control character *)
          else prepend [c] (scanstring fuel' rest)
      end
  end.

Definition scan_str (cs : list ascii) : outcome (string * list ascii) :=
  match scanstring (S (length cs)) cs with
  | Parsed (s, r) => Parsed (string_of_list_ascii s, r)
  | Invalid => Invalid
  | OutOfFuel => OutOfFuel
  end.

(** The integer part of a number: [0] alone, or a digit string. *)
Definition int_part (cs : list ascii) : option (list ascii * list ascii) :=
  match cs with
  | c :: r =>
      if Ascii.eqb c "0" then Some ([c], r)
      else match digits cs with
           | ([], _) => None
           | (ds, r') => Some (ds, r')
           end
  | [] => None
  end.

(** The optional fraction: a dot and at least one digit. *)
Definition frac_part (cs : list ascii) : list ascii * list ascii :=
  match cs with
  | c :: r =>
      if Ascii.eqb c "." then
        match digits r with
        | ([], _) => ([], cs)
        | (fs, r') => (c :: fs, r')
        end
      else ([], cs)
  | [] => ([], cs)
  end.

(** The optional sign of an exponent. *)
Definition exp_sign (cs : list ascii) : list ascii * list ascii :=
  match cs with
  | s :: t => if (Ascii.eqb s "-" || Ascii.eqb s "+")%bool then ([s], t) else ([], cs)
  | [] => ([], cs)
  end.

(** The optional exponent: [e] or [E], an optional sign, at least one
    digit. *)
Definition exp_part (cs : list ascii) : list ascii * list ascii :=
  match cs with
  | e :: r =>
      if (Ascii.eqb e "e" || Ascii.eqb e "E")%bool then
        let (sign, r') := exp_sign r in
        match digits r' with
        | ([], _) => ([], cs)
        | (es, r'') => (e :: sign ++ es, r'')
        end
      else ([], cs)
  | [] => ([], cs)
  end.

(** The optional minus sign of a number. *)
Definition minus_sign (cs : list ascii) : bool * list ascii :=
  match cs with
  | c :: r => if Ascii.eqb c "-" then (true, r) else (false, cs)
  | [] => (false, cs)
  end.

(** A number at the head of [cs], as [NUMBER_RE] matches it: an optional
    minus sign, then [0] or a digit string that does not start with [0],
    then optionally a dot with digits, then optionally an exponent.  An
    [int] when there is neither fraction nor exponent, a [float]
    otherwise. *)
Definition scan_number (cs : list ascii) : option (json * list ascii) :=
  let (neg, body) := minus_sign cs in
  match int_part body with
  | None => None
  | Some (ds, r) =>
      let (frac, r1) := frac_part r in
      let (exp, r2) := exp_part r1 in
      match frac, exp with
      | [], [] =>
          let n := int_of_digits ds in
          Some (JInt (if neg then (- n)%Z else n), r2)
      | _, _ =>
          let sign := if neg then ["-"] else [] in
          Some (JFloat (string_of_list_ascii (sign ++ ds ++ frac ++ exp)), r2)
      end
  end.

Definition chars (s : string) : list ascii := list_ascii_of_string s.

(** The constants and numbers of [scan_once]. *)
Definition scan_atom (cs : list ascii) : outcome (json * list ascii) :=
  let literal (word : string) (v : json) (otherwise : outcome (json * list ascii)) :=
    match expect (chars word) cs with
    | Some r => Parsed (v, r)
    | None => otherwise
    end in
  (literal "null" JNull
     (literal "true" (JBool true)
        (literal "false" (JBool false)
           match scan_number cs with
           | Some (v, r) => Parsed (v, r)
           | None =>
               literal "NaN" (JFloat "NaN")
                 (literal "Infinity" (JFloat "Infinity")
                    (literal "-Infinity" (JFloat "-Infinity") Invalid))
           end)))%string.

(** [scan_once], [JSONArray] and [JSONObject]. [elements] starts at a
    value of an array; [members] starts just after the opening quote of
    a key. *)
Fixpoint scan_once (fuel : nat) (cs : list ascii) : outcome (json * list ascii) :=
  match fuel with
  | O => OutOfFuel
  | S fuel' =>
      match cs with
      | [] => Invalid
      | c :: rest =>
          if Ascii.eqb c "034" then
            match scan_str rest with
            | Parsed (s, r) => Parsed (JStr s, r)
            | Invalid => Invalid
            | OutOfFuel => OutOfFuel
            end
          else if Ascii.eqb c "{" then
            match skip_ws rest with
            | d :: r =>
                if Ascii.eqb d "}" then Parsed (JDict [], r)
                else if Ascii.eqb d "034" then members fuel' [] r
                else Invalid
            | [] => Invalid
            end
          else if Ascii.eqb c "[" then
            match skip_ws rest with
            | d :: r =>
                if Ascii.eqb d "]" then Parsed (JList [], r)
                else elements fuel' [] (d :: r)
            | [] => Invalid
            end
          else scan_atom cs
      end
  end

with elements (fuel : nat) (seen : list json) (cs : list ascii)
  : outcome (json * list ascii) :=
  match fuel with
  | O => OutOfFuel
  | S fuel' =>
      match scan_once fuel' cs with
      | Parsed (v, r) =>
          match skip_ws r with
          | d :: r' =>
              if Ascii.eqb d "]" then Parsed (JList (rev (v :: seen)), r')
              else if Ascii.eqb d "," then elements fuel' (v :: seen) (skip_ws r')
              else Invalid
          | [] => Invalid
          end
      | Invalid => Invalid
      | OutOfFuel => OutOfFuel
      end
  end

with members (fuel : nat) (seen : list (string * json)) (cs : list ascii)
  : outcome (json * list ascii) :=
  match fuel with
  | O => OutOfFuel
  | S fuel' =>
      match scan_str cs with
      | Invalid => Invalid
      | OutOfFuel => OutOfFuel
      | Parsed (key, r) =>
          match skip_ws r with
          | colon :: r1 =>
              if Ascii.eqb colon ":" then
                match scan_once fuel' (skip_ws r1) with
                | Parsed (v, r2) =>
                    match skip_ws r2 with
                    | d :: r3 =>
                        if Ascii.eqb d "}" then Parsed (JDict (dict_set seen key v), r3)
                        else if Ascii.eqb d "," then
                          match skip_ws r3 with
                          | q :: r4 =>
                              if Ascii.eqb q "034"
                              then members fuel' (dict_set seen key v) r4
                              else Invalid
                          | [] => Invalid
                          end
                        else Invalid
                    | [] => Invalid
                    end
                | Invalid => Invalid
                | OutOfFuel => OutOfFuel
                end
              else Invalid
          | [] => Invalid
          end
      end
  end.

(** [JSONDecoder.decode]: white space, one value, white space, end. *)
Definition decode (s : string) : outcome json :=
  let cs := skip_ws (chars s) in
  match scan_once (2 * length cs + 1) cs with
  | Parsed (v, r) =>
      match skip_ws r with
      | [] => Parsed v
      | _ :: _ => Invalid                              (* extra data *)
      end
  | Invalid => Invalid
  | OutOfFuel => OutOfFuel
  end.

End Decoder.

(** [json.loads(s)]: the decoded value, or [None] for [JSONDecodeError]. *)
Definition json_loads (s : string) : option json :=
  match Decoder.decode s with
  | Decoder.Parsed v => Some v
  | _ => None
  end.

(* ================================================================== *)
(** * Python truth *)
(* ================================================================== *)

(** The value of the digits after [e] or [E] in a float literal, with
    their sign. *)
Definition exponent_value (cs : list ascii) : Z :=
  let (sign, ds) := Decoder.exp_sign cs in
  let n := Decoder.int_of_digits ds in
  match sign with
  | c :: _ => if Ascii.eqb c "-" then (- n)%Z else n
  | [] => n
  end.

(** The [float] a literal decodes to is zero.  The literal denotes
    [D * 10 ^ (e - f)], with [D] the number its digits spell, [f] the
    count of digits after the dot and [e] the exponent; [float] rounds
    it to the nearest double, ties to even, and the doubles next to zero
    are plus and minus [2 ^ -1074]: the result is zero exactly when the
    magnitude is at most [2 ^ -1075].  [NaN] and the infinities are not
    zero. *)
Definition float_is_zero (literal : string) : bool :=
  let (_, body) := Decoder.minus_sign (list_ascii_of_string literal) in
  match Decoder.int_part body with
  | None => false
  | Some (ds, r) =>
      let (frac, r1) := Decoder.frac_part r in
      let fs := tl frac in
      let (exp, _) := Decoder.exp_part r1 in
      let e := exponent_value (tl exp) in
      let D := Decoder.int_of_digits (ds ++ fs) in
      let k := (Z.of_nat (length fs) - e)%Z in
      ((D =? 0) || ((0 <? k) && (D * 2 ^ 1075 <=? 10 ^ k)))%Z%bool
  end.

(** Python truth value ([if v: ...]): [None], [False], zero, and the
    empty string, list and dict are false. *)
Definition truthy (v : json) : bool :=
  match v with
  | JNull => false
  | JBool b => b
  | JInt n => negb (Z.eqb n 0)
  | JFloat l => negb (float_is_zero l)
  | JStr s => negb (String.eqb s EmptyString)
  | JList xs => match xs with [] => false | _ => true end
  | JDict kvs => match kvs with [] => false | _ => true end
  end.

(** The JSON texts of the examples below are written with an apostrophe
    where the wire has a double quote. *)
Definition wire (s : string) : string :=
  string_of_list_ascii
    (map (fun c => if Ascii.eqb c "'" then "034"%char else c) (list_ascii_of_string s)).

(* ================================================================== *)
(** * Effects: printing, exceptions, early return *)
(* ================================================================== *)

(** The exceptions the scripts meet.  [KeyboardInterrupt] is the only one
    that is not an [Exception]; [FileNotFoundError] is what [subprocess]
    raises when [twm] is not on the path, [OSError] stands for its other
    failures to launch. *)
Inductive exn : Type :=
| JSONDecodeError
| AttributeError       (* [.get] on a value that is not a dict *)
| TypeError            (* [for] over a value that is not iterable *)
| UnboundLocalError    (* [proc] read before [Popen] returned *)
| FileNotFoundError
| OSError
| KeyboardInterrupt.

Definition is_Exception (e : exn) : bool :=
  match e with
  | KeyboardInterrupt => false
  | _ => true
  end.

Inductive stream : Type := Stdout | Stderr.

(** One [print] call.  Each constructor is one format string of the
    scripts, with the values that fill its holes. *)
Inductive text : Type :=
(* window_monitor.py *)
| MonitorBanner                                   (* Monitoring window events (Ctrl+C to stop)... *)
| WindowCreated (timestamp : string) (title workspace : json)
                                                  (* [ts] ✓ Window Created: title (Workspace workspace) *)
| WindowClosed (timestamp : string) (hwnd : json) (* [ts] ✗ Window Closed: HWND hwnd *)
| WindowFocused (timestamp : string) (hwnd : json)(* [ts] ◆ Window Focused: HWND hwnd *)
| UnknownEvent (timestamp : string) (event_name : json)
                                                  (* [ts] ? Unknown event: event_name *)
| StoppingMonitor                                 (* Stopping monitor... *)
(* auto_tiler.py *)
| TilerBanner                                     (* Auto-tiling new windows (Ctrl+C to stop)... *)
| NewWindow (timestamp : string) (title hwnd workspace : json)
                                                  (* [ts] New window: title (HWND: hwnd, Workspace: workspace) *)
| StoppingTiler                                   (* Stopping auto-tiler... *)
(* both streaming scripts *)
| FailedToParseEvent                              (* Failed to parse event: e *)
(* window_info.py *)
| FailedActiveWindow                              (* Error: Failed to get active window information *)
| ActiveWindowHeader                              (* Active Window: *)
| FieldHWND (v : json)
| FieldTitle (v : json)
| FieldClass (v : json)
| FieldProcess (v : json)
| FieldWorkspace (v : json)
| FieldMonitor (v : json)
| FieldState (v : json)
| FieldPosition (x y : json)
| FieldSize (width height : json)
(* workspace_status.py *)
| FailedWorkspaces                                (* Error: Failed to get workspace information *)
| WorkspaceHeader                                 (* Workspace Status: *)
| WorkspaceLine (filled : bool) (ws_id name window_count monitor : json)
                                                  (* ●/○ Workspace id: name (n windows, monitor m) *)
(* both command scripts *)
| Blank
| ErrorMessage (message : json)                   (* Error: message *)
| ErrorParsingResponse                            (* Error parsing response: e *)
| ToolNotFound                                    (* Error: 'twm' command not found. Is the CLI tool installed? *)
(* all four scripts *)
| ErrorException (e : exn).                       (* Error: e *)

Definition output : Type := stream * text.

(** What a script can touch: the lines printed so far, and whether
    [proc.terminate()] has been called on the child. *)
Record world : Type := World { printed : list output; terminate_called : bool }.

Definition fresh : world := World [] false.

(** The world after [more] further lines were printed. *)
Definition say (w : world) (more : list output) : world :=
  World (printed w ++ more) (terminate_called w).

(** How a block of statements ends: it runs to its end, it executes
    [return v], or it raises. *)
Inductive flow (A : Type) : Type :=
| Normal (a : A)
| Return (v : option Z)
| Raise (e : exn).
Arguments Normal {A} a.
Arguments Return {A} v.
Arguments Raise {A} e.

Definition M (A : Type) : Type := world -> flow A * world.

Definition ret {A} (a : A) : M A := fun w => (Normal a, w).

Definition bind {A B} (m : M A) (k : A -> M B) : M B :=
  fun w =>
    match m w with
    | (Normal a, w') => k a w'
    | (Return v, w') => (Return v, w')
    | (Raise e, w') => (Raise e, w')
    end.

Declare Scope py_scope.
Delimit Scope py_scope with py.
Notation "x <- m ;; k" := (bind m (fun x => k))
  (at level 61, m at next level, right associativity) : py_scope.
Notation "m ;; k" := (bind m (fun _ => k))
  (at level 61, right associativity) : py_scope.
Local Open Scope py_scope.

Definition raise {A} (e : exn) : M A := fun w => (Raise e, w).

Definition return_ {A} (v : Z) : M A := fun w => (Return (Some v), w).

Definition print (f : stream) (t : text) : M unit :=
  fun w => (Normal tt, say w [(f, t)]).

Definition terminate : M unit :=
  fun w => (Normal tt, World (printed w) true).

(** [try: body except ...: handler]: [handlers e] is the body of the
    first [except] clause that matches [e], if any. *)
Definition try_except {A} (body : M A) (handlers : exn -> option (M A)) : M A :=
  fun w =>
    match body w with
    | (Raise e, w') =>
        match handlers e with
        | Some handler => handler w'
        | None => (Raise e, w')
        end
    | other => other
    end.

(** [json.loads(s)] as a statement. *)
Definition loads (s : string) : M json :=
  match json_loads s with
  | Some v => ret v
  | None => raise JSONDecodeError
  end.

(** [d.get(key, default)] on the fields of a dict. *)
Definition field (fields : list (string * json)) (key : string) (default : json) : json :=
  match lookup key fields with
  | Some v => v
  | None => default
  end.

(** [o.get(key, default)]: only a dict has the method. *)
Definition get (o : json) (key : string) (default : json) : M json :=
  match o with
  | JDict fields => ret (field fields key default)
  | _ => raise AttributeError
  end.

(** The values a [for] loop draws from [o]: the items of a list, the keys
    of a dict, the characters of a string. *)
Definition iter (o : json) : M (list json) :=
  match o with
  | JList items => ret items
  | JDict fields => ret (map (fun kv => JStr (fst kv)) fields)
  | JStr s => ret (map (fun c => JStr (String c EmptyString)) (list_ascii_of_string s))
  | _ => raise TypeError
  end.

(** [for x in xs: body x]. *)
Fixpoint for_each {A} (xs : list A) (body : A -> M unit) : M unit :=
  match xs with
  | [] => ret tt
  | x :: rest => body x ;; for_each rest body
  end.

(** How a call of a script's function ends, and the status [sys.exit]
    gives the process: [None] and [0] are success, an exception that
    nothing caught ends the interpreter with status 1; when that
    exception is [KeyboardInterrupt] the interpreter dies of the
    interrupt signal instead, which a POSIX shell reports as 130. *)
Inductive result : Type :=
| Returned (v : option Z)
| Uncaught (e : exn).

Definition finish (f : flow unit) : result :=
  match f with
  | Normal tt => Returned None
  | Return v => Returned v
  | Raise e => Uncaught e
  end.

Definition exit_status (r : result) : Z :=
  match r with
  | Returned None => 0
  | Returned (Some n) => n
  | Uncaught KeyboardInterrupt => 130
  | Uncaught _ => 1
  end.

(* ================================================================== *)
(** * The streaming scripts *)
(* ================================================================== *)

(** What the environment does while the script sits in
    [for line in proc.stdout]: the child writes a line (with the wall
    clock reading [datetime.now()] gives while that line is handled), the
    operator presses Ctrl+C, or the child closes its output. *)
Inductive item : Type :=
| Line (now : string) (line : string)
| Interrupt
| EndOfStream.

Inductive phase : Type :=
| Running
| Exited (r : result).

Record session : Type := Session { state : phase; env : world }.

(** Whether [subprocess.Popen] returned a process. *)
Inductive spawn : Type :=
| Spawned
| SpawnFailed (e : exn).

Section Listener.

(** The two listeners differ in their banner, in the loop body and in
    the farewell line; the [try] around the loop is the same. *)
Variable banner : text.
Variable body : string -> string -> M unit.
Variable stopping : text.

(** The [except] clauses of the outer [try]; [proc_bound] tells
    whether [proc] was assigned when the exception arrived. *)
Definition outer_handlers (proc_bound : bool) (e : exn) : option (M unit) :=
  match e with
  | KeyboardInterrupt =>
      Some (print Stderr stopping ;;
            (if proc_bound then terminate else raise UnboundLocalError) ;;
            return_ 0)
  | _ =>
      if is_Exception e
      then Some (print Stderr (ErrorException e) ;; return_ 1)
      else None
  end.

Definition settle (r : flow unit * world) : session :=
  match r with
  | (Normal tt, w) => Session Running w
  | (Return v, w) => Session (Exited (Returned v)) w
  | (Raise e, w) => Session (Exited (Uncaught e)) w
  end.

(** From the call to the first wait for a line. *)
Definition start (sp : spawn) : session :=
  settle
    ((print Stderr banner ;;
      try_except
        (match sp with
         | Spawned => ret tt
         | SpawnFailed e => raise e
         end)
        (outer_handlers false)) fresh).

(** One turn of the loop, or the way out of it. *)
Definition step (s : session) (i : item) : session :=
  match state s with
  | Exited _ => s
  | Running =>
      match i with
      | Line now line =>
          settle (try_except (body now line) (outer_handlers true) (env s))
      | Interrupt =>
          settle (try_except (raise KeyboardInterrupt) (outer_handlers true) (env s))
      | EndOfStream => Session (Exited (Returned None)) (env s)
      end
  end.

Definition run (s : session) (items : list item) : session :=
  fold_left step items s.

End Listener.

Module WindowMonitor.

(** The body of the loop of [monitor_windows] for one line. *)
Definition body (now line : string) : M unit :=
  try_except
    (event <- loads (strip line) ;;
     let timestamp := now in
     event_name <- get event "name" (JStr "unknown") ;;
     event_data <- get event "data" (JDict []) ;;
     if eq_str event_name "window_created" then
       title <- get event_data "title" (JStr "Unknown") ;;
       workspace <- get event_data "workspace" (JStr "?") ;;
       print Stdout (WindowCreated timestamp title workspace)
     else if eq_str event_name "window_closed" then
       hwnd <- get event_data "hwnd" (JStr "Unknown") ;;
       print Stdout (WindowClosed timestamp hwnd)
     else if eq_str event_name "window_focused" then
       hwnd <- get event_data "hwnd" (JStr "Unknown") ;;
       print Stdout (WindowFocused timestamp hwnd)
     else
       print Stdout (UnknownEvent timestamp event_name))
    (fun e =>
       match e with
       | JSONDecodeError => Some (print Stderr FailedToParseEvent)
       | _ => None
       end).

Definition start : spawn -> session := start MonitorBanner StoppingMonitor.
Definition step : session -> item -> session := step body StoppingMonitor.
Definition run : session -> list item -> session := run body StoppingMonitor.

(** [monitor_windows()], seen after the environment did [items]. *)
Definition monitor_windows (sp : spawn) (items : list item) : session :=
  run (start sp) items.

End WindowMonitor.

Module AutoTiler.

(** The body of the loop of [auto_tile] for one line. *)
Definition body (now line : string) : M unit :=
  try_except
    (event <- loads (strip line) ;;
     name <- get event "name" JNull ;;
     if eq_str name "window_created" then
       event_data <- get event "data" (JDict []) ;;
       hwnd <- get event_data "hwnd" JNull ;;
       title <- get event_data "title" (JStr "Unknown") ;;
       workspace <- get event_data "workspace" (JStr "?") ;;
       let timestamp := now in
       print Stdout (NewWindow timestamp title hwnd workspace)
     else ret tt)
    (fun e =>
       match e with
       | JSONDecodeError => Some (print Stderr FailedToParseEvent)
       | _ => None
       end).

Definition start : spawn -> session := start TilerBanner StoppingTiler.
Definition step : session -> item -> session := step body StoppingTiler.
Definition run : session -> list item -> session := run body StoppingTiler.

(** [auto_tile()], seen after the environment did [items]. *)
Definition auto_tile (sp : spawn) (items : list item) : session :=
  run (start sp) items.

End AutoTiler.

(* ================================================================== *)
(** * The command scripts *)
(* ================================================================== *)

(** What [subprocess.run(..., capture_output=True, text=True)] gives: a
    completed process with its exit code and its standard output, or an
    exception when the child could not be launched. *)
Inductive ran : Type :=
| Completed (returncode : Z) (stdout : string)
| Failed (e : exn).

Definition subprocess_run (r : ran) : M (Z * string) :=
  match r with
  | Completed returncode stdout => ret (returncode, stdout)
  | Failed e => raise e
  end.

(** The [except] clauses that close both command scripts. *)
Definition command_handlers (e : exn) : option (M unit) :=
  match e with
  | JSONDecodeError => Some (print Stderr ErrorParsingResponse ;; return_ 1)
  | FileNotFoundError => Some (print Stderr ToolNotFound ;; return_ 1)
  | _ =>
      if is_Exception e
      then Some (print Stderr (ErrorException e) ;; return_ 1)
      else None
  end.

(** A call of a script's function from a fresh start: how it ended and
    what it printed. *)
Definition call (f : M unit) : result * list output :=
  let (r, w) := f fresh in (finish r, printed w).

Module WindowInfo.

(** [get_active_window] up to [window = response.get('data', {})]: the
    query, which yields the data of the envelope or leaves the function
    with status 1. *)
Definition query (r : ran) : M json :=
  result <- subprocess_run r ;;
  let (returncode, stdout) := result in
  if negb (returncode =? 0)%Z then
    print Stderr FailedActiveWindow ;; return_ 1
  else
    response <- loads stdout ;;
    type <- get response "type" JNull ;;
    if negb (eq_str type "success") then
      message <- get response "message" (JStr "Unknown error") ;;
      print Stderr (ErrorMessage message) ;; return_ 1
    else
      get response "data" (JDict []).

(** The rest of [get_active_window]: the report on [window]. *)
Definition show (window : json) : M unit :=
  print Stdout ActiveWindowHeader ;;
  print Stdout Blank ;;
  hwnd <- get window "hwnd" (JStr "Unknown") ;;
  print Stdout (FieldHWND hwnd) ;;
  title <- get window "title" (JStr "Unknown") ;;
  print Stdout (FieldTitle title) ;;
  class <- get window "class" (JStr "Unknown") ;;
  print Stdout (FieldClass class) ;;
  process_name <- get window "process_name" (JStr "Unknown") ;;
  print Stdout (FieldProcess process_name) ;;
  workspace <- get window "workspace" (JStr "?") ;;
  print Stdout (FieldWorkspace workspace) ;;
  monitor <- get window "monitor" (JStr "?") ;;
  print Stdout (FieldMonitor monitor) ;;
  state <- get window "state" (JStr "Unknown") ;;
  print Stdout (FieldState state) ;;
  rect <- get window "rect" (JDict []) ;;
  x <- get rect "x" (JInt 0) ;;
  y <- get rect "y" (JInt 0) ;;
  print Stdout (FieldPosition x y) ;;
  width <- get rect "width" (JInt 0) ;;
  height <- get rect "height" (JInt 0) ;;
  print Stdout (FieldSize width height).

Definition get_active_window (r : ran) : M unit :=
  try_except
    (window <- query r ;;
     show window ;;
     return_ 0)
    command_handlers.

Definition main (r : ran) : Z * list output :=
  let (res, out) := call (get_active_window r) in (exit_status res, out).

End WindowInfo.

Module WorkspaceStatus.

(** [get_workspaces] up to [workspaces = response.get('data', [])]. *)
Definition query (r : ran) : M json :=
  result <- subprocess_run r ;;
  let (returncode, stdout) := result in
  if negb (returncode =? 0)%Z then
    print Stderr FailedWorkspaces ;; return_ 1
  else
    response <- loads stdout ;;
    type <- get response "type" JNull ;;
    if negb (eq_str type "success") then
      message <- get response "message" (JStr "Unknown error") ;;
      print Stderr (ErrorMessage message) ;; return_ 1
    else
      get response "data" (JList []).

(** One turn of [for ws in workspaces]. *)
Definition show_workspace (ws : json) : M unit :=
  ws_id <- get ws "id" (JStr "?") ;;
  name <- get ws "name" (JStr "Unknown") ;;
  monitor <- get ws "monitor" (JStr "?") ;;
  window_count <- get ws "window_count" (JInt 0) ;;
  active <- get ws "active" (JBool false) ;;
  let status := truthy active in
  print Stdout (WorkspaceLine status ws_id name window_count monitor).

(** The rest of [get_workspaces]: the report on [workspaces]. *)
Definition show (workspaces : json) : M unit :=
  print Stdout WorkspaceHeader ;;
  print Stdout Blank ;;
  entries <- iter workspaces ;;
  for_each entries show_workspace.

Definition get_workspaces (r : ran) : M unit :=
  try_except
    (workspaces <- query r ;;
     show workspaces ;;
     return_ 0)
    command_handlers.

Definition main (r : ran) : Z * list output :=
  let (res, out) := call (get_workspaces r) in (exit_status res, out).

End WorkspaceStatus.

(* ================================================================== *)
(** * The vocabulary of the specification *)
(* ================================================================== *)


(** The failure kinds the specification gives the command client. *)
Inductive CommandError : Type :=
| ToolNotFoundKind
| ProcessFailed
| MalformedResponse
| Rejected (message : json).

(** The kind a line on standard error stands for: each kind is the
    message of one failure path of the command scripts.  The catch-all
    [Error: e] line has no kind of its own. *)
Definition kind_of (t : text) : option CommandError :=
  match t with
  | ToolNotFound => Some ToolNotFoundKind
  | FailedActiveWindow => Some ProcessFailed
  | FailedWorkspaces => Some ProcessFailed
  | ErrorParsingResponse => Some MalformedResponse
  | ErrorMessage m => Some (Rejected m)
  | _ => None
  end.

(** The failure a run of a command script reports: the kind of its last
    line on standard error when the exit status is not 0. *)
Definition failure (outcome : Z * list output) : option CommandError :=
  let (status, out) := outcome in
  if (status =? 0)%Z then None
  else
    match rev out with
    | (Stderr, t) :: _ => kind_of t
    | _ => None
    end.


(** The status a session left to the operating system, once it ended. *)
Definition status_of (s : session) : option Z :=
  match state s with
  | Running => None
  | Exited r => Some (exit_status r)
  end.

(** The shapes the reports of the command scripts can print without an
    exception: a window is a mapping whose [rect], when present, is a
    mapping; a workspace listing is a list of mappings. *)
Definition is_dict (v : json) : bool :=
  match v with
  | JDict _ => true
  | _ => false
  end.

Definition window_shaped (v : json) : bool :=
  match v with
  | JDict fields => is_dict (field fields "rect" (JDict []))
  | _ => false
  end.


(** Every printed line went to standard output. *)
Definition all_stdout (out : list output) : bool :=
  forallb (fun o => match fst o with Stdout => true | Stderr => false end) out.

(* ================================================================== *)
(** * Streams of lines *)
(* ================================================================== *)





(** No item of the stream is a Ctrl+C. *)
Definition no_interrupt (items : list item) : bool :=
  forallb (fun i => match i with Interrupt => false | _ => true end) items.

(** The names the monitor has a branch for. *)
Definition monitor_handles (name : json) : bool :=
  eq_str name "window_created" || eq_str name "window_closed"
  || eq_str name "window_focused".

(* ================================================================== *)
(** * Reports of the command scripts *)
(* ================================================================== *)

(** The line [workspace_status.py] prints for a workspace with the
    fields [ws]: the marker is filled when [active] is true in Python's
    sense. *)
Definition workspace_row (ws : list (string * json)) : output :=
  (Stdout,
   WorkspaceLine (truthy (field ws "active" (JBool false)))
                 (field ws "id" (JStr "?"))
                 (field ws "name" (JStr "Unknown"))
                 (field ws "window_count" (JInt 0))
                 (field ws "monitor" (JStr "?"))).

(** The report [window_info.py] prints for a window with the fields
    [window] up to the [State] line, before it turns to [rect]. *)
Definition window_rows (window : list (string * json)) : list output :=
  [(Stdout, ActiveWindowHeader);
   (Stdout, Blank);
   (Stdout, FieldHWND (field window "hwnd" (JStr "Unknown")));
   (Stdout, FieldTitle (field window "title" (JStr "Unknown")));
   (Stdout, FieldClass (field window "class" (JStr "Unknown")));
   (Stdout, FieldProcess (field window "process_name" (JStr "Unknown")));
   (Stdout, FieldWorkspace (field window "workspace" (JStr "?")));
   (Stdout, FieldMonitor (field window "monitor" (JStr "?")));
   (Stdout, FieldState (field window "state" (JStr "Unknown")))].

(** The data the loop of [workspace_status.py] gets through: a list of
    mappings, or something with nothing to iterate (an empty mapping, an
    empty string). *)
Definition reportable_listing (v : json) : bool :=
  match v with
  | JList entries => forallb is_dict entries
  | JDict [] => true
  | JStr EmptyString => true
  | _ => false
  end.

(** A value a [for] loop cannot iterate. *)
Definition is_scalar (v : json) : bool :=
  match v with
  | JNull | JBool _ | JInt _ | JFloat _ => true
  | _ => false
  end.

(* ================================================================== *)
(** * Sample inputs *)
(* ================================================================== *)

Definition newline : string := String "010"%char EmptyString.

(** The event of the specification's dispatch example, as a line. *)
Definition created_line : string :=
  wire "{'name':'window_created','data':{'hwnd':123,'title':'Notes','workspace':2}}"
  ++ newline.








(** The envelopes of the specification's query examples, and one whose
    [type] is neither of the two. *)
Definition success_text : string := wire "{'type':'success','data':{'id':1}}".


Definition error_text : string := wire "{'type':'error','message':'no such workspace'}".


Definition warning_text : string := wire "{'type':'warning','message':'no such workspace'}".

Definition warning_fields : list (string * json) :=
  [("type", JStr "warning"); ("message", JStr "no such workspace")].




(** Valid JSON that is not an object, and a [window_closed] event whose
    [data] is a string. *)
Definition array_line : string := "[1, 2]" ++ newline.

Definition odd_closed_line : string :=
  wire "{'name':'window_closed','data':'gone'}" ++ newline.

(** The no-break space U+00A0, the line separator U+2028 and the
    ideographic space U+3000, in UTF-8. *)
Definition nbsp : string := String "194"%char (String "160"%char EmptyString).

Definition line_separator : string :=
  String "226"%char (String "128"%char (String "168"%char EmptyString)).

Definition ideographic_space : string :=
  String "227"%char (String "128"%char (String "128"%char EmptyString)).

(** A list, and the sample event, with white space outside ASCII around
    them. *)
Definition padded_array_line : string := nbsp ++ "[1,2]" ++ newline.

Definition padded_created_line : string :=
  ideographic_space ++ nbsp
  ++ wire "{'name':'window_created','data':{'hwnd':123,'title':'Notes','workspace':2}}"
  ++ line_separator ++ " " ++ newline.


(** A line of blanks. *)
Definition blank_line : string := "   " ++ newline.

(** An event whose [data] is not a mapping. *)
Definition odd_line : string :=
  wire "{'name':'window_created','data':5}" ++ newline.

(** A session that has just started to listen. *)
Definition listening (banner : text) : world := say fresh [(Stderr, banner)].

(* ================================================================== *)
(** * Basic facts *)
(* ================================================================== *)

Lemma say_nil (w : world) : say w [] = w.
Proof. destruct w; unfold say; simpl; now rewrite app_nil_r. Qed.

Lemma say_say (w : world) (a b : list output) : say (say w a) b = say w (a ++ b).
Proof. unfold say; simpl; now rewrite app_assoc. Qed.

Lemma lstrip_whitespace_only_upto (n : nat) (s : string) :
  (String.length s <= n)%nat -> whitespace_only s = true -> lstrip s = EmptyString.
Proof.
  revert s. induction n as [|n IH]; intros s Hlen.
  - destruct s; [reflexivity | simpl in Hlen; lia].
  - destruct s as [|a rest]; [reflexivity|]. simpl in Hlen. simpl.
    destruct (space1 a); [apply IH; lia|].
    destruct rest as [|b rest']; [discriminate|]. simpl in Hlen.
    destruct (space2 a b); [apply IH; lia|].
    destruct rest' as [|c rest'']; [discriminate|]. simpl in Hlen.
    destruct (space3 a b c); [|discriminate].
    simpl. apply IH. lia.
Qed.

Lemma lstrip_whitespace_only (s : string) :
  whitespace_only s = true -> lstrip s = EmptyString.
Proof. apply (lstrip_whitespace_only_upto (String.length s)). lia. Qed.

Lemma strip_whitespace_only (s : string) :
  whitespace_only s = true -> strip s = EmptyString.
Proof.
  intros H. unfold strip. now rewrite (lstrip_whitespace_only s H).
Qed.

(** The empty text is not JSON. *)
Lemma json_loads_empty : json_loads EmptyString = None.
Proof. reflexivity. Qed.

Section ListenerFacts.

Variable banner : text.
Variable body : string -> string -> M unit.
Variable stopping : text.

Lemma step_line_normal (w w' : world) (now line : string) :
  body now line w = (Normal tt, w') ->
  step body stopping (Session Running w) (Line now line) = Session Running w'.
Proof.
  intros H. unfold step, try_except; simpl. now rewrite H.
Qed.

Lemma step_line_raise (w w' : world) (now line : string) (e : exn) :
  body now line w = (Raise e, w') ->
  e <> KeyboardInterrupt ->
  step body stopping (Session Running w) (Line now line) =
    Session (Exited (Returned (Some 1%Z))) (say w' [(Stderr, ErrorException e)]).
Proof.
  intros H Hne. unfold step, try_except; simpl. rewrite H.
  destruct e; try congruence; reflexivity.
Qed.

Lemma step_interrupt (w : world) :
  step body stopping (Session Running w) Interrupt =
    Session (Exited (Returned (Some 0%Z)))
            (World (printed w ++ [(Stderr, stopping)]) true).
Proof. reflexivity. Qed.

Lemma step_exited (r : result) (w : world) (i : item) :
  step body stopping (Session (Exited r) w) i = Session (Exited r) w.
Proof. reflexivity. Qed.

Lemma run_exited (r : result) (w : world) (items : list item) :
  run body stopping (Session (Exited r) w) items = Session (Exited r) w.
Proof.
  induction items as [|i items IH]; simpl; [reflexivity|].
  exact IH.
Qed.

Lemma run_cons (s : session) (i : item) (items : list item) :
  run body stopping s (i :: items) = run body stopping (step body stopping s i) items.
Proof. reflexivity. Qed.

End ListenerFacts.

(** Once the child is spawned, a listener has printed its banner and
    waits for the first line. *)
Lemma monitor_windows_spawned (items : list item) :
  WindowMonitor.monitor_windows Spawned items
    = WindowMonitor.run (Session Running (listening MonitorBanner)) items.
Proof. reflexivity. Qed.

Lemma auto_tile_spawned (items : list item) :
  AutoTiler.auto_tile Spawned items
    = AutoTiler.run (Session Running (listening TilerBanner)) items.
Proof. reflexivity. Qed.

(** When [twm] cannot be launched the listener reports it and returns 1. *)
Lemma listener_spawn_failure (items : list item) :
  WindowMonitor.monitor_windows (SpawnFailed FileNotFoundError) items
    = Session (Exited (Returned (Some 1%Z)))
        (World [(Stderr, MonitorBanner); (Stderr, ErrorException FileNotFoundError)] false) /\
  AutoTiler.auto_tile (SpawnFailed FileNotFoundError) items
    = Session (Exited (Returned (Some 1%Z)))
        (World [(Stderr, TilerBanner); (Stderr, ErrorException FileNotFoundError)] false).
Proof.
  split.
  - unfold WindowMonitor.monitor_windows, WindowMonitor.run. apply run_exited.
  - unfold AutoTiler.auto_tile, AutoTiler.run. apply run_exited.
Qed.

(** The end of the child's output ends the loop; the function returns
    [None] and the exit status is 0. *)
Lemma end_of_stream (w : world) (items : list item) :
  WindowMonitor.run (Session Running w) (EndOfStream :: items)
    = Session (Exited (Returned None)) w /\
  AutoTiler.run (Session Running w) (EndOfStream :: items)
    = Session (Exited (Returned None)) w.
Proof.
  split.
  - unfold WindowMonitor.run. rewrite run_cons. apply run_exited.
  - unfold AutoTiler.run. rewrite run_cons. apply run_exited.
Qed.

Lemma monitor_body_undecodable (w : world) (now line : string) :
  json_loads (strip line) = None ->
  WindowMonitor.body now line w = (Normal tt, say w [(Stderr, FailedToParseEvent)]).
Proof.
  intros H. unfold WindowMonitor.body, try_except, bind, loads. now rewrite H.
Qed.

Lemma tiler_body_undecodable (w : world) (now line : string) :
  json_loads (strip line) = None ->
  AutoTiler.body now line w = (Normal tt, say w [(Stderr, FailedToParseEvent)]).
Proof.
  intros H. unfold AutoTiler.body, try_except, bind, loads. now rewrite H.
Qed.




(** A decoded value that is not a mapping has no [get]: both bodies
    raise [AttributeError], and so does the handler of an event whose
    [data] is not a mapping. *)
Lemma body_raises_on_non_mapping (w : world) (now line : string) (v : json) :
  json_loads (strip line) = Some v ->
  is_dict v = false ->
  WindowMonitor.body now line w = (Raise AttributeError, w) /\
  AutoTiler.body now line w = (Raise AttributeError, w).
Proof.
  intros H Hv.
  unfold WindowMonitor.body, AutoTiler.body, try_except, bind, loads. rewrite H.
  destruct v; try discriminate; split; reflexivity.
Qed.

Lemma body_raises_on_odd_data
  (w : world) (now line : string) (event : list (string * json)) (data : json) :
  json_loads (strip line) = Some (JDict event) ->
  lookup "name" event = Some (JStr "window_created") ->
  lookup "data" event = Some data ->
  is_dict data = false ->
  WindowMonitor.body now line w = (Raise AttributeError, w) /\
  AutoTiler.body now line w = (Raise AttributeError, w).
Proof.
  intros H Hn Hd Hv.
  unfold WindowMonitor.body, AutoTiler.body, try_except, bind, loads. rewrite H.
  unfold get, field, ret. rewrite Hn, Hd. simpl.
  destruct data; try discriminate; split; reflexivity.
Qed.

(* ================================================================== *)
(** * Decode errors do not end a session *)
(* ================================================================== *)



(* ================================================================== *)
(** * Lines of white space *)
(* ================================================================== *)

(** C6, as the specification words it, fails: a line of blanks is not
    skipped in silence.  [strip] leaves the empty text, which
    [json.loads] rejects, and both listeners report the decode error. *)
Lemma blank_line_is_reported :
  whitespace_only blank_line = true /\
  WindowMonitor.step (Session Running (listening MonitorBanner)) (Line "10:00:00" blank_line)
    = Session Running
        (World [(Stderr, MonitorBanner); (Stderr, FailedToParseEvent)] false) /\
  AutoTiler.step (Session Running (listening TilerBanner)) (Line "10:00:00" blank_line)
    = Session Running
        (World [(Stderr, TilerBanner); (Stderr, FailedToParseEvent)] false) /\
  env (WindowMonitor.step (Session Running (listening MonitorBanner))
         (Line "10:00:00" blank_line))
    <> listening MonitorBanner.
Proof.
  repeat split; try reflexivity.
  vm_compute. discriminate.
Qed.

(** C6, amended. A line of white space yields no event, is reported as a
    decode error on standard error like any other undecodable line, and
    the session goes on. *)
Theorem whitespace_line_reported (w : world) (now line : string) :
  whitespace_only line = true ->
  WindowMonitor.step (Session Running w) (Line now line)
    = Session Running (say w [(Stderr, FailedToParseEvent)]) /\
  AutoTiler.step (Session Running w) (Line now line)
    = Session Running (say w [(Stderr, FailedToParseEvent)]).
Proof.
  intros H.
  assert (D : json_loads (strip line) = None).
  { rewrite (strip_whitespace_only line H). exact json_loads_empty. }
  split.
  - apply step_line_normal. now apply monitor_body_undecodable.
  - apply step_line_normal. now apply tiler_body_undecodable.
Qed.

Lemma whitespace_line_reported_witness :
  WindowMonitor.step (Session Running (listening MonitorBanner)) (Line "10:00:00" blank_line)
    = Session Running (say (listening MonitorBanner) [(Stderr, FailedToParseEvent)]) /\
  AutoTiler.step (Session Running (listening MonitorBanner)) (Line "10:00:00" blank_line)
    = Session Running (say (listening MonitorBanner) [(Stderr, FailedToParseEvent)]).
Proof.
  exact (whitespace_line_reported (listening MonitorBanner) "10:00:00" blank_line eq_refl).
Defined.

(* ================================================================== *)
(** * A failure while an event is handled *)
(* ================================================================== *)

(** C5, as the specification words it, fails: the event whose [data] is
    a number makes the handler raise [AttributeError]; the outer [except
    Exception] reports it and returns 1, so the session has ended and the
    well-formed line after it is never handled. *)
Lemma handler_failure_ends_session :
  WindowMonitor.run (Session Running (listening MonitorBanner))
      [Line "10:00:00" odd_line; Line "10:00:01" created_line]
    = Session (Exited (Returned (Some 1%Z)))
        (World [(Stderr, MonitorBanner); (Stderr, ErrorException AttributeError)] false) /\
  AutoTiler.run (Session Running (listening TilerBanner))
      [Line "10:00:00" odd_line; Line "10:00:01" created_line]
    = Session (Exited (Returned (Some 1%Z)))
        (World [(Stderr, TilerBanner); (Stderr, ErrorException AttributeError)] false) /\
  state (WindowMonitor.run (Session Running (listening MonitorBanner))
           [Line "10:00:00" odd_line; Line "10:00:01" created_line])
    <> Running.
Proof.
  repeat split; try reflexivity.
  vm_compute. discriminate.
Qed.

(** C5, amended. When the handling of an event raises an exception, the
    outer handler of the session reports it on standard error and the
    function returns 1: the session ends with exit status 1 and the lines
    that follow are not handled. *)
Theorem handler_failure_reported_and_fatal
  (w w' : world) (now line : string) (e : exn) (items : list item) :
  e <> KeyboardInterrupt ->
  (WindowMonitor.body now line w = (Raise e, w') ->
   WindowMonitor.run (Session Running w) (Line now line :: items)
     = Session (Exited (Returned (Some 1%Z))) (say w' [(Stderr, ErrorException e)]))
  /\
  (AutoTiler.body now line w = (Raise e, w') ->
   AutoTiler.run (Session Running w) (Line now line :: items)
     = Session (Exited (Returned (Some 1%Z))) (say w' [(Stderr, ErrorException e)])).
Proof.
  intros Hne. split; intros H.
  - unfold WindowMonitor.run. rewrite run_cons.
    rewrite (step_line_raise _ _ _ _ _ _ _ H Hne). apply run_exited.
  - unfold AutoTiler.run. rewrite run_cons.
    rewrite (step_line_raise _ _ _ _ _ _ _ H Hne). apply run_exited.
Qed.

Lemma handler_failure_reported_and_fatal_witness :
  WindowMonitor.run (Session Running (listening MonitorBanner))
      [Line "10:00:00" odd_line; Line "10:00:01" created_line]
    = Session (Exited (Returned (Some 1%Z)))
        (say (listening MonitorBanner) [(Stderr, ErrorException AttributeError)]) /\
  AutoTiler.run (Session Running (listening MonitorBanner))
      [Line "10:00:00" odd_line; Line "10:00:01" created_line]
    = Session (Exited (Returned (Some 1%Z)))
        (say (listening MonitorBanner) [(Stderr, ErrorException AttributeError)]).
Proof.
  assert (Hne : AttributeError <> KeyboardInterrupt) by discriminate.
  split.
  - exact (proj1 (handler_failure_reported_and_fatal
                    (listening MonitorBanner) (listening MonitorBanner)
                    "10:00:00" odd_line AttributeError
                    [Line "10:00:01" created_line] Hne) eq_refl).
  - exact (proj2 (handler_failure_reported_and_fatal
                    (listening MonitorBanner) (listening MonitorBanner)
                    "10:00:00" odd_line AttributeError
                    [Line "10:00:01" created_line] Hne) eq_refl).
Defined.

(* ================================================================== *)
(** * Dispatch *)
(* ================================================================== *)





(* ================================================================== *)
(** * Cancellation *)
(* ================================================================== *)

(** C9. Ctrl+C in a running session: the farewell line is printed,
    [proc.terminate()] is called on the child and the function returns 0,
    so the exit status is 0; nothing that arrives afterwards is handled.
    A session that ends on an exception of the handling code ends with
    exit status 1 instead. *)
Theorem cancellation_ends_session
  (w w' : world) (items : list item) (now line : string) (e : exn) :
  e <> KeyboardInterrupt ->
  (WindowMonitor.step (Session Running w) Interrupt
     = Session (Exited (Returned (Some 0%Z)))
         (World (printed w ++ [(Stderr, StoppingMonitor)]) true) /\
   status_of (WindowMonitor.step (Session Running w) Interrupt) = Some 0%Z /\
   WindowMonitor.run (Session Running w) (Interrupt :: items)
     = WindowMonitor.step (Session Running w) Interrupt /\
   (WindowMonitor.body now line w = (Raise e, w') ->
    status_of (WindowMonitor.step (Session Running w) (Line now line)) = Some 1%Z))
  /\
  (AutoTiler.step (Session Running w) Interrupt
     = Session (Exited (Returned (Some 0%Z)))
         (World (printed w ++ [(Stderr, StoppingTiler)]) true) /\
   status_of (AutoTiler.step (Session Running w) Interrupt) = Some 0%Z /\
   AutoTiler.run (Session Running w) (Interrupt :: items)
     = AutoTiler.step (Session Running w) Interrupt /\
   (AutoTiler.body now line w = (Raise e, w') ->
    status_of (AutoTiler.step (Session Running w) (Line now line)) = Some 1%Z)).
Proof.
  intros Hne. split.
  - split; [reflexivity|]. split; [reflexivity|]. split.
    + unfold WindowMonitor.run. rewrite run_cons.
      unfold WindowMonitor.step. rewrite step_interrupt. apply run_exited.
    + intros H. unfold WindowMonitor.step.
      now rewrite (step_line_raise _ _ _ _ _ _ _ H Hne).
  - split; [reflexivity|]. split; [reflexivity|]. split.
    + unfold AutoTiler.run. rewrite run_cons.
      unfold AutoTiler.step. rewrite step_interrupt. apply run_exited.
    + intros H. unfold AutoTiler.step.
      now rewrite (step_line_raise _ _ _ _ _ _ _ H Hne).
Qed.

Lemma cancellation_ends_session_witness :
  let w := listening MonitorBanner in
  WindowMonitor.run (Session Running w) [Interrupt; Line "10:00:01" created_line]
    = WindowMonitor.step (Session Running w) Interrupt /\
  status_of (WindowMonitor.step (Session Running w) Interrupt) = Some 0%Z /\
  status_of (WindowMonitor.step (Session Running w) (Line "10:00:00" odd_line)) = Some 1%Z /\
  status_of (AutoTiler.step (Session Running w) (Line "10:00:00" odd_line)) = Some 1%Z.
Proof.
  intros w.
  assert (Hne : AttributeError <> KeyboardInterrupt) by discriminate.
  pose proof (cancellation_ends_session w w [Line "10:00:01" created_line]
                "10:00:00" odd_line AttributeError Hne)
    as [(_ & Hs & Hr & Hf) (_ & _ & _ & Hf')].
  split; [exact Hr|]. split; [exact Hs|]. split; [exact (Hf eq_refl) | exact (Hf' eq_refl)].
Defined.

(* ================================================================== *)
(** * The command scripts: failures *)
(* ================================================================== *)

Lemma window_query_envelope (stdout : string) (fields : list (string * json)) (w : world) :
  json_loads stdout = Some (JDict fields) ->
  WindowInfo.query (Completed 0 stdout) w =
    if eq_str (field fields "type" JNull) "success"
    then (Normal (field fields "data" (JDict [])), w)
    else (Return (Some 1%Z),
          say w [(Stderr, ErrorMessage (field fields "message" (JStr "Unknown error")))]).
Proof.
  intros H. unfold WindowInfo.query, subprocess_run, bind, loads, ret. simpl.
  rewrite H. simpl.
  destruct (eq_str (field fields "type" JNull) "success"); reflexivity.
Qed.

Lemma workspace_query_envelope (stdout : string) (fields : list (string * json)) (w : world) :
  json_loads stdout = Some (JDict fields) ->
  WorkspaceStatus.query (Completed 0 stdout) w =
    if eq_str (field fields "type" JNull) "success"
    then (Normal (field fields "data" (JList [])), w)
    else (Return (Some 1%Z),
          say w [(Stderr, ErrorMessage (field fields "message" (JStr "Unknown error")))]).
Proof.
  intros H. unfold WorkspaceStatus.query, subprocess_run, bind, loads, ret. simpl.
  rewrite H. simpl.
  destruct (eq_str (field fields "type" JNull) "success"); reflexivity.
Qed.

(** A [return] or an exception in the query is what the whole function
    does: the report never starts. *)
Lemma window_main_of_query (r : ran) (v : option Z) (out : list output) :
  WindowInfo.query r fresh = (Return v, say fresh out) ->
  WindowInfo.main r = (exit_status (Returned v), out).
Proof.
  intros H. unfold WindowInfo.main, call, WindowInfo.get_active_window, try_except, bind.
  rewrite H. reflexivity.
Qed.

Lemma workspace_main_of_query (r : ran) (v : option Z) (out : list output) :
  WorkspaceStatus.query r fresh = (Return v, say fresh out) ->
  WorkspaceStatus.main r = (exit_status (Returned v), out).
Proof.
  intros H. unfold WorkspaceStatus.main, call, WorkspaceStatus.get_workspaces, try_except, bind.
  rewrite H. reflexivity.
Qed.

(** C2. A non-zero exit code ends the query at once: the script prints
    its failed-to-get line on standard error and exits with status 1,
    whatever the standard output holds.  The output is not decoded, so
    an unparsable output gives the process failure and not the
    parse-error report. *)
Theorem nonzero_exit_is_process_failure (returncode : Z) (stdout : string) :
  returncode <> 0%Z ->
  WindowInfo.main (Completed returncode stdout) = (1%Z, [(Stderr, FailedActiveWindow)]) /\
  WorkspaceStatus.main (Completed returncode stdout) = (1%Z, [(Stderr, FailedWorkspaces)]) /\
  failure (WindowInfo.main (Completed returncode stdout)) = Some ProcessFailed /\
  failure (WorkspaceStatus.main (Completed returncode stdout)) = Some ProcessFailed.
Proof.
  intros H. apply Z.eqb_neq in H.
  assert (A : WindowInfo.main (Completed returncode stdout)
              = (1%Z, [(Stderr, FailedActiveWindow)])).
  { apply (window_main_of_query _ (Some 1%Z)).
    unfold WindowInfo.query, subprocess_run, bind, ret. simpl. now rewrite H. }
  assert (B : WorkspaceStatus.main (Completed returncode stdout)
              = (1%Z, [(Stderr, FailedWorkspaces)])).
  { apply (workspace_main_of_query _ (Some 1%Z)).
    unfold WorkspaceStatus.query, subprocess_run, bind, ret. simpl. now rewrite H. }
  rewrite A, B. repeat split.
Qed.

Lemma nonzero_exit_is_process_failure_witness :
  json_loads "Segmentation fault" = None /\
  WindowInfo.main (Completed 1 "Segmentation fault") = (1%Z, [(Stderr, FailedActiveWindow)]) /\
  WorkspaceStatus.main (Completed 1 "Segmentation fault")
    = (1%Z, [(Stderr, FailedWorkspaces)]) /\
  failure (WindowInfo.main (Completed 1 "Segmentation fault")) = Some ProcessFailed /\
  failure (WorkspaceStatus.main (Completed 1 "Segmentation fault")) = Some ProcessFailed.
Proof.
  split; [reflexivity|].
  apply (nonzero_exit_is_process_failure 1 "Segmentation fault").
  discriminate.
Defined.

(** With exit code 0 the same output is decoded, and fails as a
    malformed response. *)
Lemma zero_exit_unparsable_is_malformed (stdout : string) :
  json_loads stdout = None ->
  WindowInfo.main (Completed 0 stdout) = (1%Z, [(Stderr, ErrorParsingResponse)]) /\
  WorkspaceStatus.main (Completed 0 stdout) = (1%Z, [(Stderr, ErrorParsingResponse)]).
Proof.
  intros H. split.
  - unfold WindowInfo.main, call, WindowInfo.get_active_window, try_except, bind,
      WindowInfo.query, subprocess_run, bind, loads, ret. simpl. now rewrite H.
  - unfold WorkspaceStatus.main, call, WorkspaceStatus.get_workspaces, try_except, bind,
      WorkspaceStatus.query, subprocess_run, bind, loads, ret. simpl. now rewrite H.
Qed.

(* ================================================================== *)
(** * The command scripts: reports *)
(* ================================================================== *)

(** The report of [window_info.py] on a window whose [rect] is the
    mapping [rect]: every field is looked up with its default. *)
Lemma window_report (fields rect : list (string * json)) (w : world) :
  field fields "rect" (JDict []) = JDict rect ->
  WindowInfo.show (JDict fields) w =
    (Normal tt,
     say w [(Stdout, ActiveWindowHeader);
            (Stdout, Blank);
            (Stdout, FieldHWND (field fields "hwnd" (JStr "Unknown")));
            (Stdout, FieldTitle (field fields "title" (JStr "Unknown")));
            (Stdout, FieldClass (field fields "class" (JStr "Unknown")));
            (Stdout, FieldProcess (field fields "process_name" (JStr "Unknown")));
            (Stdout, FieldWorkspace (field fields "workspace" (JStr "?")));
            (Stdout, FieldMonitor (field fields "monitor" (JStr "?")));
            (Stdout, FieldState (field fields "state" (JStr "Unknown")));
            (Stdout, FieldPosition (field rect "x" (JInt 0)) (field rect "y" (JInt 0)));
            (Stdout, FieldSize (field rect "width" (JInt 0))
                               (field rect "height" (JInt 0)))]).
Proof.
  intros Hr. unfold WindowInfo.show, bind, get, ret, print. rewrite Hr.
  rewrite !say_say. reflexivity.
Qed.

(** The line of [workspace_status.py] for one entry that is a mapping. *)
Lemma workspace_line (fields : list (string * json)) (w : world) :
  WorkspaceStatus.show_workspace (JDict fields) w =
    (Normal tt,
     say w [(Stdout,
             WorkspaceLine (truthy (field fields "active" (JBool false)))
                           (field fields "id" (JStr "?"))
                           (field fields "name" (JStr "Unknown"))
                           (field fields "window_count" (JInt 0))
                           (field fields "monitor" (JStr "?")))]).
Proof. reflexivity. Qed.




(* ================================================================== *)
(** * The command scripts: envelopes *)
(* ================================================================== *)

Lemma not_success (fields : list (string * json)) :
  lookup "type" fields <> Some (JStr "success") ->
  eq_str (field fields "type" JNull) "success" = false.
Proof.
  intros H. unfold field.
  destruct (lookup "type" fields) as [[| | | |t| |]|]; try reflexivity.
  simpl. destruct (String.eqb_spec t "success") as [->|]; [now elim H | reflexivity].
Qed.

Lemma rejected_envelope (stdout : string) (fields : list (string * json)) :
  json_loads stdout = Some (JDict fields) ->
  eq_str (field fields "type" JNull) "success" = false ->
  WindowInfo.main (Completed 0 stdout)
    = (1%Z, [(Stderr, ErrorMessage (field fields "message" (JStr "Unknown error")))]) /\
  WorkspaceStatus.main (Completed 0 stdout)
    = (1%Z, [(Stderr, ErrorMessage (field fields "message" (JStr "Unknown error")))]).
Proof.
  intros H Ht. split.
  - apply (window_main_of_query _ (Some 1%Z)).
    rewrite (window_query_envelope stdout fields fresh H). now rewrite Ht.
  - apply (workspace_main_of_query _ (Some 1%Z)).
    rewrite (workspace_query_envelope stdout fields fresh H). now rewrite Ht.
Qed.



(** The report of [workspace_status.py] cannot print the data of the
    first example, a mapping: the loop draws its key, a string, and
    [.get] on it raises. *)
Lemma workspace_report_of_mapping :
  WorkspaceStatus.main (Completed 0 success_text)
    = (1%Z, [(Stdout, WorkspaceHeader); (Stdout, Blank);
             (Stderr, ErrorException AttributeError)]).
Proof. reflexivity. Qed.

(** C4, as the specification words it, fails: an envelope whose [type]
    is [warning] is not a malformed response for the scripts.  They take
    the branch of every type other than [success], print the message and
    exit 1, exactly as for the same envelope with type [error]. *)
Lemma other_type_is_not_malformed :
  json_loads warning_text = Some (JDict warning_fields) /\
  WindowInfo.main (Completed 0 warning_text)
    = (1%Z, [(Stderr, ErrorMessage (JStr "no such workspace"))]) /\
  WorkspaceStatus.main (Completed 0 warning_text)
    = (1%Z, [(Stderr, ErrorMessage (JStr "no such workspace"))]) /\
  failure (WindowInfo.main (Completed 0 warning_text)) <> Some MalformedResponse /\
  failure (WorkspaceStatus.main (Completed 0 warning_text)) <> Some MalformedResponse /\
  failure (WindowInfo.main (Completed 0 warning_text))
    = failure (WindowInfo.main (Completed 0 error_text)) /\
  failure (WorkspaceStatus.main (Completed 0 warning_text))
    = failure (WorkspaceStatus.main (Completed 0 error_text)).
Proof.
  repeat split; try reflexivity; vm_compute; discriminate.
Qed.

(** C4, amended. For every envelope whose [type] is not [success] (it is
    [error], another value, or absent) the script takes one and the same
    branch: it prints [Error:] with the [message] of the envelope, or
    with [Unknown error] when there is none, and exits with status 1, a
    rejection carrying that message.  The malformed-response report is
    for an output that does not decode. *)
Theorem non_success_type_is_rejected (stdout : string) (fields : list (string * json)) :
  json_loads stdout = Some (JDict fields) ->
  lookup "type" fields <> Some (JStr "success") ->
  WindowInfo.main (Completed 0 stdout)
    = (1%Z, [(Stderr, ErrorMessage (field fields "message" (JStr "Unknown error")))]) /\
  WorkspaceStatus.main (Completed 0 stdout)
    = (1%Z, [(Stderr, ErrorMessage (field fields "message" (JStr "Unknown error")))]) /\
  failure (WindowInfo.main (Completed 0 stdout))
    = Some (Rejected (field fields "message" (JStr "Unknown error"))) /\
  failure (WorkspaceStatus.main (Completed 0 stdout))
    = Some (Rejected (field fields "message" (JStr "Unknown error"))).
Proof.
  intros H Ht.
  destruct (rejected_envelope stdout fields H (not_success fields Ht)) as [A B].
  rewrite A, B. repeat split.
Qed.

Lemma non_success_type_is_rejected_witness :
  WindowInfo.main (Completed 0 warning_text)
    = (1%Z, [(Stderr, ErrorMessage (JStr "no such workspace"))]) /\
  WorkspaceStatus.main (Completed 0 warning_text)
    = (1%Z, [(Stderr, ErrorMessage (JStr "no such workspace"))]) /\
  failure (WindowInfo.main (Completed 0 warning_text))
    = Some (Rejected (JStr "no such workspace")) /\
  failure (WorkspaceStatus.main (Completed 0 warning_text))
    = Some (Rejected (JStr "no such workspace")).
Proof.
  apply (non_success_type_is_rejected warning_text warning_fields eq_refl).
  discriminate.
Defined.

(* ================================================================== *)
(** * Absent fields *)
(* ================================================================== *)





(* ================================================================== *)
(** * The decoder has fuel enough *)
(* ================================================================== *)

Module DecoderFacts.

Import Decoder.
Local Open Scope nat_scope.

Lemma skip_ws_length (cs : list ascii) : length (skip_ws cs) <= length cs.
Proof.
  induction cs as [|c cs IH]; simpl; [lia|].
  destruct (is_ws c); simpl; lia.
Qed.

Lemma digits_length (cs ds r : list ascii) :
  digits cs = (ds, r) -> length cs = length ds + length r.
Proof.
  revert ds r. induction cs as [|c cs IH]; simpl; intros ds r H.
  - inversion H. reflexivity.
  - destruct (is_digit c).
    + destruct (digits cs) as [ds' r'] eqn:E. inversion H; subst.
      simpl. now rewrite (IH ds' r eq_refl).
    + inversion H. reflexivity.
Qed.

Lemma int_part_length (cs ds r : list ascii) :
  int_part cs = Some (ds, r) -> length r < length cs.
Proof.
  unfold int_part. destruct cs as [|c cs]; [discriminate|].
  destruct (Ascii.eqb c "0").
  - intros H. inversion H. simpl. lia.
  - destruct (digits (c :: cs)) as [[|d ds'] r'] eqn:E; [discriminate|].
    intros H. inversion H; subst.
    apply digits_length in E. simpl in *. lia.
Qed.

Lemma frac_part_length (cs fs r : list ascii) :
  frac_part cs = (fs, r) -> length r <= length cs.
Proof.
  unfold frac_part. destruct cs as [|c cs].
  - intros H. inversion H. simpl. lia.
  - destruct (Ascii.eqb c ".").
    + destruct (digits cs) as [[|d ds] r'] eqn:E; intros H; inversion H; subst.
      * simpl. lia.
      * apply digits_length in E. simpl in *. lia.
    + intros H. inversion H. simpl. lia.
Qed.

Lemma exp_sign_length (cs sign r : list ascii) :
  exp_sign cs = (sign, r) -> length r <= length cs.
Proof.
  unfold exp_sign. destruct cs as [|c cs].
  - intros H. inversion H. simpl. lia.
  - destruct (Ascii.eqb c "-" || Ascii.eqb c "+")%bool;
      intros H; inversion H; simpl; lia.
Qed.

Lemma exp_part_length (cs es r : list ascii) :
  exp_part cs = (es, r) -> length r <= length cs.
Proof.
  unfold exp_part. destruct cs as [|c cs].
  - intros H. inversion H. simpl. lia.
  - destruct (Ascii.eqb c "e" || Ascii.eqb c "E")%bool.
    + destruct (exp_sign cs) as [sign r'] eqn:Es.
      apply exp_sign_length in Es.
      destruct (digits r') as [[|d ds] r''] eqn:E; intros H; inversion H; subst.
      * simpl. lia.
      * apply digits_length in E. simpl in *. lia.
    + intros H. inversion H. simpl. lia.
Qed.

Lemma minus_sign_length (cs r : list ascii) (neg : bool) :
  minus_sign cs = (neg, r) -> length r <= length cs.
Proof.
  unfold minus_sign. destruct cs as [|c cs].
  - intros H. inversion H. simpl. lia.
  - destruct (Ascii.eqb c "-"); intros H; inversion H; simpl; lia.
Qed.

Lemma scan_number_length (cs r : list ascii) (v : json) :
  scan_number cs = Some (v, r) -> length r < length cs.
Proof.
  unfold scan_number.
  destruct (minus_sign cs) as [neg body] eqn:Em. apply minus_sign_length in Em.
  destruct (int_part body) as [[ds r0]|] eqn:Ei; [|discriminate].
  apply int_part_length in Ei.
  destruct (frac_part r0) as [fs r1] eqn:Ef. apply frac_part_length in Ef.
  destruct (exp_part r1) as [es r2] eqn:Ee. apply exp_part_length in Ee.
  destruct fs, es; intros H; inversion H; subst; lia.
Qed.

Lemma expect_length (word cs r : list ascii) :
  expect word cs = Some r -> length cs = length word + length r.
Proof.
  revert cs. induction word as [|x word IH]; simpl; intros cs H.
  - inversion H. reflexivity.
  - destruct cs as [|c cs]; [discriminate|].
    destruct (Ascii.eqb x c); [|discriminate].
    simpl. now rewrite (IH cs H).
Qed.

Lemma scan_atom_length (cs r : list ascii) (v : json) :
  scan_atom cs = Parsed (v, r) -> length r < length cs.
Proof.
  unfold scan_atom.
  repeat match goal with
         | |- context [expect ?word cs] =>
             let E := fresh "E" in
             destruct (expect word cs) eqn:E;
             [apply expect_length in E; simpl in E;
              intros H; inversion H; subst; lia|]
         | |- context [scan_number cs] =>
             let E := fresh "E" in
             destruct (scan_number cs) as [[? ?]|] eqn:E;
             [apply scan_number_length in E;
              intros H; inversion H; subst; lia|]
         end.
  discriminate.
Qed.

Lemma scan_atom_fuel (cs : list ascii) : scan_atom cs <> OutOfFuel.
Proof.
  unfold scan_atom.
  repeat match goal with
         | |- context [expect ?word cs] => destruct (expect word cs); [discriminate|]
         | |- context [scan_number cs] =>
             destruct (scan_number cs) as [[? ?]|]; [discriminate|]
         end.
  discriminate.
Qed.

Lemma hex4_length (cs r : list ascii) (u : Z) :
  hex4 cs = Some (u, r) -> length r < length cs.
Proof.
  unfold hex4. destruct cs as [|a [|b [|c [|d rest]]]]; try discriminate.
  destruct (hex_val a), (hex_val b), (hex_val c), (hex_val d); try discriminate.
  intros H. inversion H. simpl. lia.
Qed.

Lemma unicode_escape_length (u cp : Z) (cs r : list ascii) :
  unicode_escape u cs = (cp, r) -> length r <= length cs.
Proof.
  unfold unicode_escape.
  destruct ((55296 <=? u)%Z && (u <=? 56319)%Z)%bool;
    [|intros H; inversion H; lia].
  destruct cs as [|b [|l rest]]; try (intros H; inversion H; simpl; lia).
  destruct (Ascii.eqb b "\" && Ascii.eqb l "u")%bool;
    [|intros H; inversion H; simpl; lia].
  destruct (hex4 rest) as [[u2 rest']|] eqn:E;
    [|intros H; inversion H; simpl; lia].
  apply hex4_length in E.
  destruct ((56320 <=? u2)%Z && (u2 <=? 57343)%Z)%bool;
    intros H; inversion H; subst; simpl; lia.
Qed.

Lemma prepend_parsed (pre s r : list ascii) (o : outcome (list ascii * list ascii)) :
  prepend pre o = Parsed (s, r) -> exists s', o = Parsed (s', r).
Proof.
  destruct o as [[s' r']| |]; simpl; try discriminate.
  intros H. inversion H. now exists s'.
Qed.

Lemma prepend_fuel (pre : list ascii) (o : outcome (list ascii * list ascii)) :
  o <> OutOfFuel -> prepend pre o <> OutOfFuel.
Proof. destruct o as [[s r]| |]; simpl; congruence. Qed.

Lemma scanstring_length (fuel : nat) (cs s r : list ascii) :
  scanstring fuel cs = Parsed (s, r) -> length r < length cs.
Proof.
  revert cs s. induction fuel as [|fuel IH]; simpl; intros cs s; [discriminate|].
  destruct cs as [|c rest]; [discriminate|].
  destruct (Ascii.eqb c "034"); [intros H; inversion H; simpl; lia|].
  destruct (Ascii.eqb c "\").
  - destruct rest as [|e rest']; [discriminate|].
    repeat match goal with
           | |- context [if Ascii.eqb e ?x then prepend _ _ else _] =>
               destruct (Ascii.eqb e x);
               [intros H; apply prepend_parsed in H as [s' H];
                apply IH in H; simpl; lia|]
           end.
    destruct (Ascii.eqb e "u"); [|discriminate].
    destruct (hex4 rest') as [[u after]|] eqn:E; [|discriminate].
    apply hex4_length in E.
    destruct (unicode_escape u after) as [cp after'] eqn:Eu.
    apply unicode_escape_length in Eu.
    intros H. apply prepend_parsed in H as [s' H]. apply IH in H. simpl. lia.
  - destruct (nat_of_ascii c <? 32); [discriminate|].
    intros H. apply prepend_parsed in H as [s' H]. apply IH in H. simpl. lia.
Qed.

Lemma scanstring_fuel (fuel : nat) (cs : list ascii) :
  length cs < fuel -> scanstring fuel cs <> OutOfFuel.
Proof.
  revert cs. induction fuel as [|fuel IH]; simpl; intros cs Hlen; [lia|].
  destruct cs as [|c rest]; [discriminate|]. simpl in Hlen.
  destruct (Ascii.eqb c "034"); [discriminate|].
  destruct (Ascii.eqb c "\").
  - destruct rest as [|e rest']; [discriminate|]. simpl in Hlen.
    repeat match goal with
           | |- context [if Ascii.eqb e ?x then prepend _ _ else _] =>
               destruct (Ascii.eqb e x); [apply prepend_fuel, IH; lia|]
           end.
    destruct (Ascii.eqb e "u"); [|discriminate].
    destruct (hex4 rest') as [[u after]|] eqn:E; [|discriminate].
    apply hex4_length in E.
    destruct (unicode_escape u after) as [cp after'] eqn:Eu.
    apply unicode_escape_length in Eu.
    apply prepend_fuel, IH. lia.
  - destruct (nat_of_ascii c <? 32); [discriminate|].
    apply prepend_fuel, IH. lia.
Qed.

Lemma scan_str_length (cs r : list ascii) (s : string) :
  scan_str cs = Parsed (s, r) -> length r < length cs.
Proof.
  unfold scan_str.
  destruct (scanstring (S (length cs)) cs) as [[s' r']| |] eqn:E; try discriminate.
  intros H. inversion H; subst. now apply scanstring_length in E.
Qed.

Lemma scan_str_fuel (cs : list ascii) : scan_str cs <> OutOfFuel.
Proof.
  unfold scan_str.
  destruct (scanstring (S (length cs)) cs) as [[s' r']| |] eqn:E; try discriminate.
  exfalso. revert E. apply scanstring_fuel. lia.
Qed.

(** Whatever a scanner parses, it has consumed at least one character. *)
Lemma scan_length (fuel : nat) :
  (forall cs v r, scan_once fuel cs = Parsed (v, r) -> length r < length cs) /\
  (forall seen cs v r, elements fuel seen cs = Parsed (v, r) -> length r < length cs) /\
  (forall seen cs v r, members fuel seen cs = Parsed (v, r) -> length r < length cs).
Proof.
  induction fuel as [|fuel (IHs & IHe & IHm)];
    [repeat split; intros; discriminate|].
  split; [|split].
  - intros cs v r. simpl. destruct cs as [|c rest]; [discriminate|].
    destruct (Ascii.eqb c "034").
    { destruct (scan_str rest) as [[s r']| |] eqn:E; try discriminate.
      apply scan_str_length in E. intros H; inversion H; subst. simpl. lia. }
    destruct (Ascii.eqb c "{").
    { pose proof (skip_ws_length rest) as Hw.
      destruct (skip_ws rest) as [|d r'] eqn:E; [discriminate|]. simpl in Hw.
      destruct (Ascii.eqb d "}"); [intros H; inversion H; subst; simpl; lia|].
      destruct (Ascii.eqb d "034"); [|discriminate].
      intros H. apply IHm in H. simpl. lia. }
    destruct (Ascii.eqb c "[").
    { pose proof (skip_ws_length rest) as Hw.
      destruct (skip_ws rest) as [|d r'] eqn:E; [discriminate|]. simpl in Hw.
      destruct (Ascii.eqb d "]"); [intros H; inversion H; subst; simpl; lia|].
      intros H. apply IHe in H. simpl in *. lia. }
    apply scan_atom_length.
  - intros seen cs v r. simpl.
    destruct (scan_once fuel cs) as [[v' r']| |] eqn:E; try discriminate.
    apply IHs in E. pose proof (skip_ws_length r') as Hw.
    destruct (skip_ws r') as [|d r''] eqn:E'; [discriminate|]. simpl in Hw.
    destruct (Ascii.eqb d "]"); [intros H; inversion H; subst; lia|].
    destruct (Ascii.eqb d ","); [|discriminate].
    intros H. apply IHe in H. pose proof (skip_ws_length r''). lia.
  - intros seen cs v r. simpl.
    destruct (scan_str cs) as [[key r0]| |] eqn:E; try discriminate.
    apply scan_str_length in E. pose proof (skip_ws_length r0) as Hw.
    destruct (skip_ws r0) as [|colon r1] eqn:E0; [discriminate|]. simpl in Hw.
    destruct (Ascii.eqb colon ":"); [|discriminate].
    destruct (scan_once fuel (skip_ws r1)) as [[v' r2]| |] eqn:E1; try discriminate.
    apply IHs in E1. pose proof (skip_ws_length r1) as Hw1.
    pose proof (skip_ws_length r2) as Hw2.
    destruct (skip_ws r2) as [|d r3] eqn:E2; [discriminate|]. simpl in Hw2.
    destruct (Ascii.eqb d "}"); [intros H; inversion H; subst; lia|].
    destruct (Ascii.eqb d ","); [|discriminate].
    pose proof (skip_ws_length r3) as Hw3.
    destruct (skip_ws r3) as [|q r4] eqn:E3; [discriminate|]. simpl in Hw3.
    destruct (Ascii.eqb q "034"); [|discriminate].
    intros H. apply IHm in H. lia.
Qed.

(** Twice the length of the input, and one more, is fuel enough. *)
Lemma scan_fuel (fuel : nat) :
  (forall cs, 2 * length cs + 1 <= fuel -> scan_once fuel cs <> OutOfFuel) /\
  (forall seen cs, 2 * length cs + 2 <= fuel -> elements fuel seen cs <> OutOfFuel) /\
  (forall seen cs, 2 * length cs + 2 <= fuel -> members fuel seen cs <> OutOfFuel).
Proof.
  induction fuel as [|fuel (IHs & IHe & IHm)];
    [repeat split; intros; lia|].
  split; [|split].
  - intros cs Hf. simpl. destruct cs as [|c rest]; [discriminate|]. simpl in Hf.
    destruct (Ascii.eqb c "034").
    { pose proof (scan_str_fuel rest).
      destruct (scan_str rest) as [[s r']| |]; congruence. }
    destruct (Ascii.eqb c "{").
    { pose proof (skip_ws_length rest) as Hw.
      destruct (skip_ws rest) as [|d r'] eqn:E; [discriminate|]. simpl in Hw.
      destruct (Ascii.eqb d "}"); [discriminate|].
      destruct (Ascii.eqb d "034"); [|discriminate].
      apply IHm. lia. }
    destruct (Ascii.eqb c "[").
    { pose proof (skip_ws_length rest) as Hw.
      destruct (skip_ws rest) as [|d r'] eqn:E; [discriminate|]. simpl in Hw.
      destruct (Ascii.eqb d "]"); [discriminate|].
      apply IHe. simpl. lia. }
    apply scan_atom_fuel.
  - intros seen cs Hf. simpl.
    assert (Hs : scan_once fuel cs <> OutOfFuel) by (apply IHs; lia).
    destruct (scan_once fuel cs) as [[v' r']| |] eqn:E; try congruence.
    apply (proj1 (scan_length fuel)) in E. pose proof (skip_ws_length r') as Hw.
    destruct (skip_ws r') as [|d r''] eqn:E'; [discriminate|]. simpl in Hw.
    destruct (Ascii.eqb d "]"); [discriminate|].
    destruct (Ascii.eqb d ","); [|discriminate].
    apply IHe. pose proof (skip_ws_length r''). lia.
  - intros seen cs Hf. simpl.
    pose proof (scan_str_fuel cs) as Hk.
    destruct (scan_str cs) as [[key r0]| |] eqn:E; try congruence.
    apply scan_str_length in E. pose proof (skip_ws_length r0) as Hw.
    destruct (skip_ws r0) as [|colon r1] eqn:E0; [discriminate|]. simpl in Hw.
    destruct (Ascii.eqb colon ":"); [|discriminate].
    pose proof (skip_ws_length r1) as Hw1.
    assert (Hs : scan_once fuel (skip_ws r1) <> OutOfFuel) by (apply IHs; lia).
    destruct (scan_once fuel (skip_ws r1)) as [[v' r2]| |] eqn:E1; try congruence.
    apply (proj1 (scan_length fuel)) in E1.
    pose proof (skip_ws_length r2) as Hw2.
    destruct (skip_ws r2) as [|d r3] eqn:E2; [discriminate|]. simpl in Hw2.
    destruct (Ascii.eqb d "}"); [discriminate|].
    destruct (Ascii.eqb d ","); [|discriminate].
    pose proof (skip_ws_length r3) as Hw3.
    destruct (skip_ws r3) as [|q r4] eqn:E3; [discriminate|]. simpl in Hw3.
    destruct (Ascii.eqb q "034"); [|discriminate].
    apply IHm. lia.
Qed.

(** [decode] never stops for want of fuel: [json_loads] gives [None]
    only for a text that is not JSON. *)
Theorem decode_fuel (s : string) : decode s <> OutOfFuel.
Proof.
  unfold decode.
  pose proof (proj1 (scan_fuel (2 * length (skip_ws (chars s)) + 1))
                (skip_ws (chars s)) (le_n _)) as H.
  destruct (scan_once (2 * length (skip_ws (chars s)) + 1) (skip_ws (chars s)))
    as [[v r]| |]; try congruence.
  destruct (skip_ws r); discriminate.
Qed.

End DecoderFacts.

(** [json.loads] raises exactly when the decoder finds the text invalid. *)
Lemma json_loads_none (s : string) :
  json_loads s = None <-> Decoder.decode s = Decoder.Invalid.
Proof.
  unfold json_loads. pose proof (DecoderFacts.decode_fuel s) as H.
  destruct (Decoder.decode s); split; intros; congruence.
Qed.

(* ================================================================== *)
(** * Sessions over whole streams *)
(* ================================================================== *)

(** What the body of the monitor's loop can do with a line: print one
    line and go on, or raise [AttributeError] without printing. *)
Lemma monitor_body_outcome (now line : string) (w : world) :
  (exists o, WindowMonitor.body now line w = (Normal tt, say w [o])) \/
  WindowMonitor.body now line w = (Raise AttributeError, w).
Proof.
  unfold WindowMonitor.body, try_except, bind, loads.
  destruct (json_loads (strip line)) as [v|]; [|left; eexists; reflexivity].
  destruct v as [| | | | | |fields]; try (right; reflexivity).
  unfold get, ret. cbv beta iota.
  destruct (field fields "data" (JDict [])) as [| | | | | |data];
    destruct (eq_str (field fields "name" (JStr "unknown")) "window_created");
    try (right; reflexivity); try (left; eexists; reflexivity);
    destruct (eq_str (field fields "name" (JStr "unknown")) "window_closed");
    try (right; reflexivity); try (left; eexists; reflexivity);
    destruct (eq_str (field fields "name" (JStr "unknown")) "window_focused");
    try (right; reflexivity); left; eexists; reflexivity.
Qed.

(** The same for the auto-tiler, which may also print nothing. *)
Lemma tiler_body_outcome (now line : string) (w : world) :
  (exists d, AutoTiler.body now line w = (Normal tt, say w d) /\ (length d <= 1)%nat) \/
  AutoTiler.body now line w = (Raise AttributeError, w).
Proof.
  unfold AutoTiler.body, try_except, bind, loads.
  destruct (json_loads (strip line)) as [v|];
    [|left; eexists; split; [reflexivity | simpl; lia]].
  destruct v as [| | | | | |fields]; try (right; reflexivity).
  unfold get, ret. cbv beta iota.
  destruct (eq_str (field fields "name" JNull) "window_created").
  - destruct (field fields "data" (JDict [])) as [| | | | | |data];
      try (right; reflexivity).
    left; eexists; split; [reflexivity | simpl; lia].
  - left. exists []. rewrite say_nil. split; [reflexivity | simpl; lia].
Qed.

Section ListenerStreams.

Variable body : string -> string -> M unit.
Variable stopping : text.

(** The loop body prints and goes on, or raises [AttributeError] before
    it printed anything; both scripts' bodies are so. *)
Hypothesis body_outcome :
  forall now line w,
    (exists d, body now line w = (Normal tt, say w d)) \/
    body now line w = (Raise AttributeError, w).

(** The four ways a session can stand after any stream: still in the
    loop, out of it at the end of the stream, out of it on an exception
    (reported, status 1), or cancelled (farewell printed, child
    signalled, status 0), the last only when a Ctrl+C was in the
    stream.  What was printed before stays printed. *)
Lemma run_cases (items : list item) (w : world) :
  exists d,
    run body stopping (Session Running w) items = Session Running (say w d) \/
    run body stopping (Session Running w) items
      = Session (Exited (Returned None)) (say w d) \/
    run body stopping (Session Running w) items
      = Session (Exited (Returned (Some 1%Z))) (say w d) \/
    (run body stopping (Session Running w) items
       = Session (Exited (Returned (Some 0%Z))) (World (printed w ++ d) true) /\
     no_interrupt items = false).
Proof.
  revert w. induction items as [|i items IH]; intros w.
  - exists []. left. simpl. now rewrite say_nil.
  - rewrite run_cons. destruct i as [now line| |].
    + destruct (body_outcome now line w) as [[d Hd] | Hr].
      * rewrite (step_line_normal _ _ _ _ _ _ Hd).
        destruct (IH (say w d)) as (d' & [H | [H | [H | [H Hi]]]]);
          exists (d ++ d'); rewrite H, ?say_say.
        -- now left.
        -- right; now left.
        -- right; right; now left.
        -- right; right; right. split; [|exact Hi].
           simpl. now rewrite app_assoc.
      * assert (Hne : AttributeError <> KeyboardInterrupt) by discriminate.
        rewrite (step_line_raise _ _ _ _ _ _ _ Hr Hne), run_exited.
        eexists. right; right; left. reflexivity.
    + rewrite step_interrupt, run_exited.
      eexists. right; right; right. split; reflexivity.
    + change (step body stopping (Session Running w) EndOfStream)
        with (Session (Exited (Returned None)) w).
      rewrite run_exited.
      exists []. right; left. now rewrite say_nil.
Qed.

End ListenerStreams.

Lemma monitor_body_prints (now line : string) (w : world) :
  (exists d, WindowMonitor.body now line w = (Normal tt, say w d)) \/
  WindowMonitor.body now line w = (Raise AttributeError, w).
Proof.
  destruct (monitor_body_outcome now line w) as [[o H] | H]; [left | now right].
  now exists [o].
Qed.

Lemma tiler_body_prints (now line : string) (w : world) :
  (exists d, AutoTiler.body now line w = (Normal tt, say w d)) \/
  AutoTiler.body now line w = (Raise AttributeError, w).
Proof.
  destruct (tiler_body_outcome now line w) as [(d & H & _) | H]; [left | now right].
  now exists d.
Qed.

(** X1. Whatever the child writes and whenever Ctrl+C comes, a listener
    that has spawned its child lets no exception escape: after any
    stream the session is still running or has ended with [None], 0 or
    1, so the exit status is 0 or 1. *)
Theorem listener_never_crashes (w : world) (items : list item) :
  (state (WindowMonitor.run (Session Running w) items) = Running \/
   status_of (WindowMonitor.run (Session Running w) items) = Some 0%Z \/
   status_of (WindowMonitor.run (Session Running w) items) = Some 1%Z)
  /\
  (state (AutoTiler.run (Session Running w) items) = Running \/
   status_of (AutoTiler.run (Session Running w) items) = Some 0%Z \/
   status_of (AutoTiler.run (Session Running w) items) = Some 1%Z)
  /\
  (forall e, state (WindowMonitor.run (Session Running w) items) <> Exited (Uncaught e))
  /\
  (forall e, state (AutoTiler.run (Session Running w) items) <> Exited (Uncaught e)).
Proof.
  unfold WindowMonitor.run, AutoTiler.run.
  destruct (run_cases WindowMonitor.body StoppingMonitor monitor_body_prints items w)
    as (d & [H | [H | [H | [H _]]]]);
  destruct (run_cases AutoTiler.body StoppingTiler tiler_body_prints items w)
    as (d' & [H' | [H' | [H' | [H' _]]]]);
  rewrite H, H'; unfold status_of; simpl;
  repeat split; auto; try discriminate.
Qed.

(** X2. [proc.terminate()] is called exactly when the session ends by
    Ctrl+C, the one way to the return value 0.  A session that ends at
    the end of the stream or on an exception leaves the child
    unsignalled; so does every stream without a Ctrl+C. *)
Theorem child_signalled_only_on_cancel (w : world) (items : list item) :
  terminate_called w = false ->
  (terminate_called (env (WindowMonitor.run (Session Running w) items)) = true <->
   state (WindowMonitor.run (Session Running w) items) = Exited (Returned (Some 0%Z)))
  /\
  (terminate_called (env (AutoTiler.run (Session Running w) items)) = true <->
   state (AutoTiler.run (Session Running w) items) = Exited (Returned (Some 0%Z)))
  /\
  (no_interrupt items = true ->
   terminate_called (env (WindowMonitor.run (Session Running w) items)) = false /\
   terminate_called (env (AutoTiler.run (Session Running w) items)) = false).
Proof.
  intros Hw. unfold WindowMonitor.run, AutoTiler.run.
  destruct (run_cases WindowMonitor.body StoppingMonitor monitor_body_prints items w)
    as (d & [H | [H | [H | [H Hi]]]]);
  destruct (run_cases AutoTiler.body StoppingTiler tiler_body_prints items w)
    as (d' & [H' | [H' | [H' | [H' Hi']]]]);
  rewrite H, H'; simpl; rewrite ?Hw;
  repeat split; intros; try congruence; try discriminate.
Qed.

Lemma child_signalled_only_on_cancel_witness :
  let w := listening MonitorBanner in
  let items := [Line "10:00:00" created_line; Line "10:00:01" odd_line;
                Line "10:00:02" created_line] in
  terminate_called (env (WindowMonitor.run (Session Running w) items)) = false /\
  terminate_called (env (AutoTiler.run (Session Running w) items)) = false.
Proof.
  intros w items.
  exact (proj2 (proj2 (child_signalled_only_on_cancel w items eq_refl)) eq_refl).
Defined.






(* ================================================================== *)
(** * Starting a listener *)
(* ================================================================== *)

(** X5. When [subprocess.Popen] raises an exception (the tool is not
    installed, or may not be run), the listener prints its banner and
    then [Error: e] on standard error and returns 1, whatever the
    exception: it has no message of its own for a missing tool, and it
    handles no line. *)
Theorem spawn_failure_is_fatal (e : exn) (items : list item) :
  e <> KeyboardInterrupt ->
  WindowMonitor.monitor_windows (SpawnFailed e) items
    = Session (Exited (Returned (Some 1%Z)))
        (World [(Stderr, MonitorBanner); (Stderr, ErrorException e)] false) /\
  AutoTiler.auto_tile (SpawnFailed e) items
    = Session (Exited (Returned (Some 1%Z)))
        (World [(Stderr, TilerBanner); (Stderr, ErrorException e)] false).
Proof.
  intros Hne.
  unfold WindowMonitor.monitor_windows, WindowMonitor.run, WindowMonitor.start,
    AutoTiler.auto_tile, AutoTiler.run, AutoTiler.start.
  assert (A : forall banner stopping,
             start banner stopping (SpawnFailed e)
             = Session (Exited (Returned (Some 1%Z)))
                 (World [(Stderr, banner); (Stderr, ErrorException e)] false)).
  { intros banner stopping. destruct e; try congruence; reflexivity. }
  rewrite !A. split; apply run_exited.
Qed.

Lemma spawn_failure_is_fatal_witness :
  WindowMonitor.monitor_windows (SpawnFailed FileNotFoundError)
      [Line "10:00:00" created_line]
    = Session (Exited (Returned (Some 1%Z)))
        (World [(Stderr, MonitorBanner); (Stderr, ErrorException FileNotFoundError)] false) /\
  AutoTiler.auto_tile (SpawnFailed FileNotFoundError) [Line "10:00:00" created_line]
    = Session (Exited (Returned (Some 1%Z)))
        (World [(Stderr, TilerBanner); (Stderr, ErrorException FileNotFoundError)] false).
Proof.
  apply (spawn_failure_is_fatal FileNotFoundError [Line "10:00:00" created_line]).
  discriminate.
Defined.

(** X6. A Ctrl+C that arrives while [subprocess.Popen] has not yet
    returned is caught by [except KeyboardInterrupt], whose handler
    prints the farewell and then reads [proc], which was never
    assigned: [UnboundLocalError] leaves the function uncaught, the
    return value 0 is not reached and the exit status is 1. *)
Theorem interrupt_during_spawn (items : list item) :
  WindowMonitor.monitor_windows (SpawnFailed KeyboardInterrupt) items
    = Session (Exited (Uncaught UnboundLocalError))
        (World [(Stderr, MonitorBanner); (Stderr, StoppingMonitor)] false) /\
  AutoTiler.auto_tile (SpawnFailed KeyboardInterrupt) items
    = Session (Exited (Uncaught UnboundLocalError))
        (World [(Stderr, TilerBanner); (Stderr, StoppingTiler)] false) /\
  status_of (WindowMonitor.monitor_windows (SpawnFailed KeyboardInterrupt) items) = Some 1%Z /\
  status_of (AutoTiler.auto_tile (SpawnFailed KeyboardInterrupt) items) = Some 1%Z.
Proof.
  assert (A : WindowMonitor.monitor_windows (SpawnFailed KeyboardInterrupt) items
              = Session (Exited (Uncaught UnboundLocalError))
                  (World [(Stderr, MonitorBanner); (Stderr, StoppingMonitor)] false)).
  { unfold WindowMonitor.monitor_windows, WindowMonitor.run. apply run_exited. }
  assert (B : AutoTiler.auto_tile (SpawnFailed KeyboardInterrupt) items
              = Session (Exited (Uncaught UnboundLocalError))
                  (World [(Stderr, TilerBanner); (Stderr, StoppingTiler)] false)).
  { unfold AutoTiler.auto_tile, AutoTiler.run. apply run_exited. }
  rewrite A, B. repeat split.
Qed.

(* ================================================================== *)
(** * More on dispatch *)
(* ================================================================== *)



(** X8. A line that is valid JSON but not an object (a list, a number,
    a string, [true], [null]) is not skipped like an undecodable line:
    [event.get] raises [AttributeError], the session prints [Error: ...]
    and ends with status 1, and the lines after it are not handled. *)
Theorem non_object_line_is_fatal
  (w : world) (now line : string) (v : json) (items : list item) :
  json_loads (strip line) = Some v ->
  is_dict v = false ->
  WindowMonitor.run (Session Running w) (Line now line :: items)
    = Session (Exited (Returned (Some 1%Z)))
        (say w [(Stderr, ErrorException AttributeError)]) /\
  AutoTiler.run (Session Running w) (Line now line :: items)
    = Session (Exited (Returned (Some 1%Z)))
        (say w [(Stderr, ErrorException AttributeError)]).
Proof.
  intros H Hv.
  destruct (body_raises_on_non_mapping w now line v H Hv) as [Bm Bt].
  assert (Hne : AttributeError <> KeyboardInterrupt) by discriminate.
  unfold WindowMonitor.run, AutoTiler.run. rewrite !run_cons.
  rewrite (step_line_raise _ _ _ _ _ _ _ Bm Hne), (step_line_raise _ _ _ _ _ _ _ Bt Hne).
  split; apply run_exited.
Qed.

Lemma non_object_line_is_fatal_witness :
  WindowMonitor.run (Session Running (listening MonitorBanner))
      [Line "10:00:00" array_line; Line "10:00:01" created_line]
    = Session (Exited (Returned (Some 1%Z)))
        (say (listening MonitorBanner) [(Stderr, ErrorException AttributeError)]) /\
  AutoTiler.run (Session Running (listening MonitorBanner))
      [Line "10:00:00" array_line; Line "10:00:01" created_line]
    = Session (Exited (Returned (Some 1%Z)))
        (say (listening MonitorBanner) [(Stderr, ErrorException AttributeError)]).
Proof.
  exact (non_object_line_is_fatal (listening MonitorBanner) "10:00:00" array_line
           (JList [JInt 1; JInt 2]) [Line "10:00:01" created_line] eq_refl eq_refl).
Defined.

(** X9. An event whose [data] is present but not a mapping ends the
    monitor when its name is one of the three the monitor handles, and
    ends the auto-tiler when its name is [window_created]; for any other
    name the auto-tiler does not look at [data] and goes on. *)
Theorem odd_data_is_fatal_where_handled
  (w : world) (now line : string) (event : list (string * json)) (name data : json)
  (items : list item) :
  json_loads (strip line) = Some (JDict event) ->
  lookup "name" event = Some name ->
  lookup "data" event = Some data ->
  is_dict data = false ->
  (monitor_handles name = true ->
   WindowMonitor.run (Session Running w) (Line now line :: items)
     = Session (Exited (Returned (Some 1%Z)))
         (say w [(Stderr, ErrorException AttributeError)]))
  /\
  (eq_str name "window_created" = true ->
   AutoTiler.run (Session Running w) (Line now line :: items)
     = Session (Exited (Returned (Some 1%Z)))
         (say w [(Stderr, ErrorException AttributeError)]))
  /\
  (eq_str name "window_created" = false ->
   AutoTiler.step (Session Running w) (Line now line) = Session Running w).
Proof.
  intros H Hn Hd Hv.
  assert (Hne : AttributeError <> KeyboardInterrupt) by discriminate.
  split; [|split].
  - intros Hh.
    assert (B : WindowMonitor.body now line w = (Raise AttributeError, w)).
    { unfold WindowMonitor.body, try_except, bind, loads. rewrite H.
      unfold get, ret. cbv beta iota. unfold field. rewrite Hn, Hd.
      unfold monitor_handles in Hh.
      destruct (eq_str name "window_created");
        [destruct data; try discriminate; reflexivity|].
      destruct (eq_str name "window_closed");
        [destruct data; try discriminate; reflexivity|].
      destruct (eq_str name "window_focused"); [|discriminate].
      destruct data; try discriminate; reflexivity. }
    unfold WindowMonitor.run. rewrite run_cons.
    rewrite (step_line_raise _ _ _ _ _ _ _ B Hne). apply run_exited.
  - intros Hc.
    assert (B : AutoTiler.body now line w = (Raise AttributeError, w)).
    { unfold AutoTiler.body, try_except, bind, loads. rewrite H.
      unfold get, ret. cbv beta iota. unfold field. rewrite Hn, Hd, Hc.
      destruct data; try discriminate; reflexivity. }
    unfold AutoTiler.run. rewrite run_cons.
    rewrite (step_line_raise _ _ _ _ _ _ _ B Hne). apply run_exited.
  - intros Hc. apply step_line_normal.
    unfold AutoTiler.body, try_except, bind, loads. rewrite H.
    unfold get, ret. cbv beta iota. unfold field. rewrite Hn, Hc. reflexivity.
Qed.

Lemma odd_data_is_fatal_where_handled_witness :
  WindowMonitor.run (Session Running (listening MonitorBanner))
      [Line "10:00:00" odd_closed_line; Line "10:00:01" created_line]
    = Session (Exited (Returned (Some 1%Z)))
        (say (listening MonitorBanner) [(Stderr, ErrorException AttributeError)]) /\
  AutoTiler.step (Session Running (listening MonitorBanner)) (Line "10:00:00" odd_closed_line)
    = Session Running (listening MonitorBanner).
Proof.
  pose proof (odd_data_is_fatal_where_handled (listening MonitorBanner) "10:00:00"
                odd_closed_line
                [("name", JStr "window_closed"); ("data", JStr "gone")]
                (JStr "window_closed") (JStr "gone") [Line "10:00:01" created_line]
                eq_refl eq_refl eq_refl eq_refl) as (Hm & _ & Ht).
  split; [exact (Hm eq_refl) | exact (Ht eq_refl)].
Defined.

(* ================================================================== *)
(** * More on the command scripts *)
(* ================================================================== *)

(** X10. When [subprocess.run] cannot launch the tool: a missing
    executable ([FileNotFoundError]) gets the message of its own, asking
    whether the tool is installed; any other exception of the launch is
    printed as [Error: e].  Both end with status 1 and nothing on
    standard output. *)
Theorem launch_failure_reports :
  WindowInfo.main (Failed FileNotFoundError) = (1%Z, [(Stderr, ToolNotFound)]) /\
  WorkspaceStatus.main (Failed FileNotFoundError) = (1%Z, [(Stderr, ToolNotFound)]) /\
  (forall e : exn,
      is_Exception e = true -> e <> FileNotFoundError -> e <> JSONDecodeError ->
      WindowInfo.main (Failed e) = (1%Z, [(Stderr, ErrorException e)]) /\
      WorkspaceStatus.main (Failed e) = (1%Z, [(Stderr, ErrorException e)])).
Proof.
  split; [reflexivity|]. split; [reflexivity|].
  intros e He Hf Hj. destruct e; try congruence; try discriminate; split; reflexivity.
Qed.

Lemma launch_failure_reports_witness :
  WindowInfo.main (Failed OSError) = (1%Z, [(Stderr, ErrorException OSError)]) /\
  WorkspaceStatus.main (Failed OSError) = (1%Z, [(Stderr, ErrorException OSError)]).
Proof.
  apply (proj2 (proj2 launch_failure_reports) OSError); [reflexivity | | ]; discriminate.
Defined.

(** X11. Exit code 0 with an output that is not JSON, the empty output
    included: the script prints [Error parsing response: ...] on
    standard error and exits with status 1, the malformed-response
    failure. *)
Theorem unparsable_output_is_malformed (stdout : string) :
  json_loads stdout = None ->
  WindowInfo.main (Completed 0 stdout) = (1%Z, [(Stderr, ErrorParsingResponse)]) /\
  WorkspaceStatus.main (Completed 0 stdout) = (1%Z, [(Stderr, ErrorParsingResponse)]) /\
  failure (WindowInfo.main (Completed 0 stdout)) = Some MalformedResponse /\
  failure (WorkspaceStatus.main (Completed 0 stdout)) = Some MalformedResponse.
Proof.
  intros H. destruct (zero_exit_unparsable_is_malformed stdout H) as [A B].
  rewrite A, B. repeat split.
Qed.

Lemma unparsable_output_is_malformed_witness :
  WindowInfo.main (Completed 0 EmptyString) = (1%Z, [(Stderr, ErrorParsingResponse)]) /\
  WorkspaceStatus.main (Completed 0 EmptyString) = (1%Z, [(Stderr, ErrorParsingResponse)]) /\
  failure (WindowInfo.main (Completed 0 EmptyString)) = Some MalformedResponse /\
  failure (WorkspaceStatus.main (Completed 0 EmptyString)) = Some MalformedResponse.
Proof.
  exact (unparsable_output_is_malformed EmptyString eq_refl).
Defined.

Lemma non_mapping_response (stdout : string) (v : json) :
  json_loads stdout = Some v ->
  is_dict v = false ->
  WindowInfo.main (Completed 0 stdout) = (1%Z, [(Stderr, ErrorException AttributeError)]) /\
  WorkspaceStatus.main (Completed 0 stdout)
    = (1%Z, [(Stderr, ErrorException AttributeError)]).
Proof.
  intros H Hv. split.
  - unfold WindowInfo.main, call, WindowInfo.get_active_window, try_except, bind,
      WindowInfo.query, subprocess_run, bind, loads, ret. simpl. rewrite H.
    destruct v; try discriminate; reflexivity.
  - unfold WorkspaceStatus.main, call, WorkspaceStatus.get_workspaces, try_except, bind,
      WorkspaceStatus.query, subprocess_run, bind, loads, ret. simpl. rewrite H.
    destruct v; try discriminate; reflexivity.
Qed.

(** X12. Exit code 0 with an output that is JSON but not an object (a
    list, a string, a number, [null]): [response.get] raises
    [AttributeError], which the last [except] clause prints as
    [Error: ...]; the script exits with status 1, and the failure is not
    reported as a parse error. *)
Theorem non_object_response (stdout : string) (v : json) :
  json_loads stdout = Some v ->
  is_dict v = false ->
  WindowInfo.main (Completed 0 stdout) = (1%Z, [(Stderr, ErrorException AttributeError)]) /\
  WorkspaceStatus.main (Completed 0 stdout)
    = (1%Z, [(Stderr, ErrorException AttributeError)]) /\
  failure (WindowInfo.main (Completed 0 stdout)) <> Some MalformedResponse /\
  failure (WorkspaceStatus.main (Completed 0 stdout)) <> Some MalformedResponse.
Proof.
  intros H Hv. destruct (non_mapping_response stdout v H Hv) as [A B].
  rewrite A, B. repeat split; discriminate.
Qed.

Lemma non_object_response_witness :
  WindowInfo.main (Completed 0 "[]") = (1%Z, [(Stderr, ErrorException AttributeError)]) /\
  WorkspaceStatus.main (Completed 0 "[]")
    = (1%Z, [(Stderr, ErrorException AttributeError)]) /\
  failure (WindowInfo.main (Completed 0 "[]")) <> Some MalformedResponse /\
  failure (WorkspaceStatus.main (Completed 0 "[]")) <> Some MalformedResponse.
Proof.
  exact (non_object_response "[]" (JList []) eq_refl eq_refl).
Defined.

(** X13. A success envelope without [data]: [window_info.py] takes the
    empty mapping and prints the whole report with every default;
    [workspace_status.py] takes the empty list and prints its header
    and no workspace.  Both exit with status 0. *)
Theorem success_without_data (stdout : string) (fields : list (string * json)) :
  json_loads stdout = Some (JDict fields) ->
  lookup "type" fields = Some (JStr "success") ->
  lookup "data" fields = None ->
  WindowInfo.main (Completed 0 stdout)
    = (0%Z, window_rows [] ++ [(Stdout, FieldPosition (JInt 0) (JInt 0));
                               (Stdout, FieldSize (JInt 0) (JInt 0))]) /\
  WorkspaceStatus.main (Completed 0 stdout)
    = (0%Z, [(Stdout, WorkspaceHeader); (Stdout, Blank)]).
Proof.
  intros H Ht Hd. split.
  - unfold WindowInfo.main, call, WindowInfo.get_active_window, try_except.
    unfold bind at 1. rewrite (window_query_envelope stdout fields fresh H).
    unfold field. rewrite Ht, Hd. reflexivity.
  - unfold WorkspaceStatus.main, call, WorkspaceStatus.get_workspaces, try_except.
    unfold bind at 1. rewrite (workspace_query_envelope stdout fields fresh H).
    unfold field. rewrite Ht, Hd. reflexivity.
Qed.

Lemma success_without_data_witness :
  WindowInfo.main (Completed 0 (wire "{'type':'success'}"))
    = (0%Z, window_rows [] ++ [(Stdout, FieldPosition (JInt 0) (JInt 0));
                               (Stdout, FieldSize (JInt 0) (JInt 0))]) /\
  WorkspaceStatus.main (Completed 0 (wire "{'type':'success'}"))
    = (0%Z, [(Stdout, WorkspaceHeader); (Stdout, Blank)]).
Proof.
  exact (success_without_data (wire "{'type':'success'}") [("type", JStr "success")]
           eq_refl eq_refl eq_refl).
Defined.

(** How a script ends once its query has yielded the data: on the way
    the report on that data ends. *)
Lemma report_ok (show : M unit) (d : list output) :
  show fresh = (Normal tt, say fresh d) ->
  call (try_except (show ;; return_ 0) command_handlers) = (Returned (Some 0%Z), d).
Proof.
  intros H. unfold call, try_except, bind. rewrite H. reflexivity.
Qed.

Lemma report_raises (show : M unit) (d : list output) (e : exn) :
  show fresh = (Raise e, say fresh d) ->
  e = AttributeError \/ e = TypeError ->
  call (try_except (show ;; return_ 0) command_handlers)
    = (Returned (Some 1%Z), d ++ [(Stderr, ErrorException e)]).
Proof.
  intros H He. unfold call, try_except, bind. rewrite H.
  destruct He as [-> | ->]; reflexivity.
Qed.

Lemma window_main_shows (stdout : string) (fields : list (string * json)) :
  json_loads stdout = Some (JDict fields) ->
  lookup "type" fields = Some (JStr "success") ->
  WindowInfo.main (Completed 0 stdout)
    = (let (res, out) :=
         call (try_except
                 (WindowInfo.show (field fields "data" (JDict [])) ;; return_ 0)
                 command_handlers)
       in (exit_status res, out)).
Proof.
  intros H Ht.
  unfold WindowInfo.main, call, WindowInfo.get_active_window, try_except.
  unfold bind at 1 3. rewrite (window_query_envelope stdout fields fresh H).
  unfold field at 1. rewrite Ht. reflexivity.
Qed.

Lemma workspace_main_shows (stdout : string) (fields : list (string * json)) :
  json_loads stdout = Some (JDict fields) ->
  lookup "type" fields = Some (JStr "success") ->
  WorkspaceStatus.main (Completed 0 stdout)
    = (let (res, out) :=
         call (try_except
                 (WorkspaceStatus.show (field fields "data" (JList [])) ;; return_ 0)
                 command_handlers)
       in (exit_status res, out)).
Proof.
  intros H Ht.
  unfold WorkspaceStatus.main, call, WorkspaceStatus.get_workspaces, try_except.
  unfold bind at 1 3. rewrite (workspace_query_envelope stdout fields fresh H).
  unfold field at 1. rewrite Ht. reflexivity.
Qed.

(** The three ways the window report can go. *)
Lemma window_show_non_mapping (v : json) (w : world) :
  is_dict v = false ->
  WindowInfo.show v w
    = (Raise AttributeError, say w [(Stdout, ActiveWindowHeader); (Stdout, Blank)]).
Proof.
  intros H. destruct v; try discriminate;
    unfold WindowInfo.show, bind, print, get, raise; now rewrite say_say.
Qed.

Lemma window_show_odd_rect (window : list (string * json)) (w : world) :
  is_dict (field window "rect" (JDict [])) = false ->
  WindowInfo.show (JDict window) w = (Raise AttributeError, say w (window_rows window)).
Proof.
  intros H. unfold WindowInfo.show, bind, print, get, ret, raise.
  destruct (field window "rect" (JDict [])); try discriminate;
    now rewrite !say_say.
Qed.

Lemma window_show_whole (window rect : list (string * json)) (w : world) :
  field window "rect" (JDict []) = JDict rect ->
  WindowInfo.show (JDict window) w
    = (Normal tt,
       say w (window_rows window ++
              [(Stdout, FieldPosition (field rect "x" (JInt 0)) (field rect "y" (JInt 0)));
               (Stdout, FieldSize (field rect "width" (JInt 0))
                                  (field rect "height" (JInt 0)))])).
Proof. intros H. now rewrite (window_report window rect w H). Qed.



(** The loop over a list of mappings prints the row of each, in order. *)
Lemma workspace_loop_rows (entries : list (list (string * json))) (w : world) :
  for_each (map JDict entries) WorkspaceStatus.show_workspace w
    = (Normal tt, say w (map workspace_row entries)).
Proof.
  revert w. induction entries as [|ws entries IH]; intros w; simpl.
  - unfold ret. now rewrite say_nil.
  - unfold bind. rewrite workspace_line, IH, say_say. reflexivity.
Qed.

(** It stops at the first entry that is not a mapping. *)
Lemma workspace_loop_stops
  (before : list (list (string * json))) (bad : json) (after : list json) (w : world) :
  is_dict bad = false ->
  for_each (map JDict before ++ bad :: after) WorkspaceStatus.show_workspace w
    = (Raise AttributeError, say w (map workspace_row before)).
Proof.
  intros Hb. revert w. induction before as [|ws before IH]; intros w; simpl.
  - unfold bind. rewrite say_nil.
    destruct bad; try discriminate; reflexivity.
  - unfold bind. rewrite workspace_line, IH, say_say. reflexivity.
Qed.

Lemma workspace_show_list (entries : list json) (w : world) :
  WorkspaceStatus.show (JList entries) w
    = (let (f, w') :=
         for_each entries WorkspaceStatus.show_workspace
           (say w [(Stdout, WorkspaceHeader); (Stdout, Blank)])
       in (f, w')).
Proof.
  unfold WorkspaceStatus.show, bind, print, iter, ret. rewrite say_say. simpl.
  now destruct (for_each entries WorkspaceStatus.show_workspace _) as [[[]| |] w'].
Qed.





(** X17. When [data] is not a list: a number, a boolean or [null]
    cannot be iterated, and after the header the script prints
    [Error: ...] for the [TypeError] and exits 1; a mapping or a string
    is iterated over its keys or characters, which are strings without
    [get], so a non-empty one fails with [AttributeError] after the
    header, while an empty one counts as an empty listing and exits 0. *)
Theorem workspace_data_not_a_list
  (stdout : string) (fields : list (string * json)) (d : json) :
  json_loads stdout = Some (JDict fields) ->
  lookup "type" fields = Some (JStr "success") ->
  lookup "data" fields = Some d ->
  (is_scalar d = true ->
   WorkspaceStatus.main (Completed 0 stdout)
     = (1%Z, [(Stdout, WorkspaceHeader); (Stdout, Blank);
              (Stderr, ErrorException TypeError)]))
  /\
  (d = JDict [] \/ d = JStr EmptyString ->
   WorkspaceStatus.main (Completed 0 stdout)
     = (0%Z, [(Stdout, WorkspaceHeader); (Stdout, Blank)]))
  /\
  ((exists kv rest, d = JDict (kv :: rest)) \/ (exists c rest, d = JStr (String c rest)) ->
   WorkspaceStatus.main (Completed 0 stdout)
     = (1%Z, [(Stdout, WorkspaceHeader); (Stdout, Blank);
              (Stderr, ErrorException AttributeError)])).
Proof.
  intros H Ht Hd. rewrite (workspace_main_shows stdout fields H Ht).
  unfold field. rewrite Hd. split; [|split].
  - intros Hs. destruct d; try discriminate; reflexivity.
  - intros [-> | ->]; reflexivity.
  - intros [(kv & rest & ->) | (c & rest & ->)]; reflexivity.
Qed.

Lemma workspace_data_not_a_list_witness :
  WorkspaceStatus.main (Completed 0 (wire "{'type':'success','data':null}"))
    = (1%Z, [(Stdout, WorkspaceHeader); (Stdout, Blank);
             (Stderr, ErrorException TypeError)]) /\
  WorkspaceStatus.main (Completed 0 (wire "{'type':'success','data':{}}"))
    = (0%Z, [(Stdout, WorkspaceHeader); (Stdout, Blank)]) /\
  WorkspaceStatus.main (Completed 0 (wire "{'type':'success','data':'ab'}"))
    = (1%Z, [(Stdout, WorkspaceHeader); (Stdout, Blank);
             (Stderr, ErrorException AttributeError)]).
Proof.
  split; [|split].
  - exact (proj1 (workspace_data_not_a_list
                    (wire "{'type':'success','data':null}")
                    [("type", JStr "success"); ("data", JNull)] JNull
                    eq_refl eq_refl eq_refl) eq_refl).
  - exact (proj1 (proj2 (workspace_data_not_a_list
                    (wire "{'type':'success','data':{}}")
                    [("type", JStr "success"); ("data", JDict [])] (JDict [])
                    eq_refl eq_refl eq_refl)) (or_introl eq_refl)).
  - exact (proj2 (proj2 (workspace_data_not_a_list
                    (wire "{'type':'success','data':'ab'}")
                    [("type", JStr "success"); ("data", JStr "ab")] (JStr "ab")
                    eq_refl eq_refl eq_refl))
             (or_intror (ex_intro _ "a"%char (ex_intro _ "b" eq_refl)))).
Defined.

(* ================================================================== *)
(** * What every run of a command script is like *)
(* ================================================================== *)

Lemma success_type (fields : list (string * json)) :
  eq_str (field fields "type" JNull) "success" = true <->
  lookup "type" fields = Some (JStr "success").
Proof.
  unfold field. split.
  - destruct (lookup "type" fields) as [[| | | |t| |]|]; simpl; try discriminate.
    intros H. apply String.eqb_eq in H. now subst.
  - intros ->. reflexivity.
Qed.

(** A run that does not reach the report prints one line, on standard
    error, and exits 1; the only other runs are those on a success
    envelope and the launch cut short by Ctrl+C. *)
Lemma window_main_cases (r : ran) :
  (exists stdout fields,
      r = Completed 0 stdout /\ json_loads stdout = Some (JDict fields) /\
      lookup "type" fields = Some (JStr "success"))
  \/ (exists t, WindowInfo.main r = (1%Z, [(Stderr, t)]))
  \/ r = Failed KeyboardInterrupt.
Proof.
  destruct r as [returncode stdout | e].
  - destruct (Z.eqb_spec returncode 0) as [-> | Hrc].
    + destruct (json_loads stdout) as [v|] eqn:E.
      * destruct (is_dict v) eqn:Hv.
        -- destruct v as [| | | | | |fields]; try discriminate.
           destruct (eq_str (field fields "type" JNull) "success") eqn:Ht.
           ++ left. exists stdout, fields. repeat split; auto. now apply success_type.
           ++ right; left. eexists. exact (proj1 (rejected_envelope stdout fields E Ht)).
        -- right; left. eexists. exact (proj1 (non_mapping_response stdout v E Hv)).
      * right; left. eexists. exact (proj1 (zero_exit_unparsable_is_malformed stdout E)).
    + right; left. exists FailedActiveWindow.
      apply (window_main_of_query _ (Some 1%Z)).
      unfold WindowInfo.query, subprocess_run, bind, ret. simpl.
      apply Z.eqb_neq in Hrc. now rewrite Hrc.
  - destruct e; try (right; left; eexists; reflexivity). now right; right.
Qed.

Lemma workspace_main_cases (r : ran) :
  (exists stdout fields,
      r = Completed 0 stdout /\ json_loads stdout = Some (JDict fields) /\
      lookup "type" fields = Some (JStr "success"))
  \/ (exists t, WorkspaceStatus.main r = (1%Z, [(Stderr, t)]))
  \/ r = Failed KeyboardInterrupt.
Proof.
  destruct r as [returncode stdout | e].
  - destruct (Z.eqb_spec returncode 0) as [-> | Hrc].
    + destruct (json_loads stdout) as [v|] eqn:E.
      * destruct (is_dict v) eqn:Hv.
        -- destruct v as [| | | | | |fields]; try discriminate.
           destruct (eq_str (field fields "type" JNull) "success") eqn:Ht.
           ++ left. exists stdout, fields. repeat split; auto. now apply success_type.
           ++ right; left. eexists. exact (proj2 (rejected_envelope stdout fields E Ht)).
        -- right; left. eexists. exact (proj2 (non_mapping_response stdout v E Hv)).
      * right; left. eexists. exact (proj2 (zero_exit_unparsable_is_malformed stdout E)).
    + right; left. exists FailedWorkspaces.
      apply (workspace_main_of_query _ (Some 1%Z)).
      unfold WorkspaceStatus.query, subprocess_run, bind, ret. simpl.
      apply Z.eqb_neq in Hrc. now rewrite Hrc.
  - destruct e; try (right; left; eexists; reflexivity). now right; right.
Qed.

(** The window report ends normally exactly on a window-shaped value,
    and otherwise raises [AttributeError]; what it printed by then is on
    standard output. *)
Lemma window_show_outcome (v : json) (w : world) :
  exists d,
    all_stdout d = true /\
    ((window_shaped v = true /\ WindowInfo.show v w = (Normal tt, say w d)) \/
     (window_shaped v = false /\ WindowInfo.show v w = (Raise AttributeError, say w d))).
Proof.
  destruct (is_dict v) eqn:Hv.
  - destruct v as [| | | | | |window]; try discriminate.
    destruct (is_dict (field window "rect" (JDict []))) eqn:Hr.
    + destruct (field window "rect" (JDict [])) as [| | | | | |rect] eqn:Er;
        try discriminate.
      eexists. split; [|left; split; [simpl; now rewrite Er|]].
      2: exact (window_show_whole window rect w Er). reflexivity.
    + eexists. split; [|right; split; [exact Hr|]].
      2: exact (window_show_odd_rect window w Hr). reflexivity.
  - eexists. split; [|right; split].
    3: exact (window_show_non_mapping v w Hv).
    + reflexivity.
    + destruct v; try discriminate; reflexivity.
Qed.

Lemma rows_on_stdout (entries : list (list (string * json))) :
  all_stdout (map workspace_row entries) = true.
Proof. induction entries; simpl; auto. Qed.

(** Every list of entries is a run of mappings, followed by nothing or
    by an entry that is not a mapping. *)
Lemma entries_split (entries : list json) :
  (exists rows, entries = map JDict rows /\ forallb is_dict entries = true) \/
  (exists rows bad rest,
      entries = map JDict rows ++ bad :: rest /\ is_dict bad = false /\
      forallb is_dict entries = false).
Proof.
  induction entries as [|entry entries IH].
  - left. now exists [].
  - destruct (is_dict entry) eqn:He.
    + destruct entry as [| | | | | |ws]; try discriminate.
      destruct IH as [(rows & -> & Hall) | (rows & bad & rest & -> & Hb & Hall)].
      * left. exists (ws :: rows). split; [reflexivity | exact Hall].
      * right. exists (ws :: rows), bad, rest. repeat split; auto.
    + right. exists [], entry, entries. repeat split; auto.
      simpl. now rewrite He.
Qed.

Lemma workspace_show_outcome (v : json) (w : world) :
  exists d,
    all_stdout d = true /\
    ((reportable_listing v = true /\ WorkspaceStatus.show v w = (Normal tt, say w d)) \/
     (reportable_listing v = false /\
      exists e, (e = AttributeError \/ e = TypeError) /\
                WorkspaceStatus.show v w = (Raise e, say w d))).
Proof.
  assert (Hhead : forall e, WorkspaceStatus.show v w
                            = (Raise e, say w [(Stdout, WorkspaceHeader); (Stdout, Blank)]) ->
                  reportable_listing v = false ->
                  e = AttributeError \/ e = TypeError ->
                  exists d,
                    all_stdout d = true /\
                    ((reportable_listing v = true /\
                      WorkspaceStatus.show v w = (Normal tt, say w d)) \/
                     (reportable_listing v = false /\
                      exists e, (e = AttributeError \/ e = TypeError) /\
                                WorkspaceStatus.show v w = (Raise e, say w d)))).
  { intros e He Hv Hk. eexists. split; [|right; split; [exact Hv|]].
    2: exists e; split; [exact Hk | exact He]. reflexivity. }
  destruct v as [|b|n|l|s|entries|fields].
  - apply (Hhead TypeError); auto.
    unfold WorkspaceStatus.show, bind, print, iter, raise. now rewrite say_say.
  - apply (Hhead TypeError); auto.
    unfold WorkspaceStatus.show, bind, print, iter, raise. now rewrite say_say.
  - apply (Hhead TypeError); auto.
    unfold WorkspaceStatus.show, bind, print, iter, raise. now rewrite say_say.
  - apply (Hhead TypeError); auto.
    unfold WorkspaceStatus.show, bind, print, iter, raise. now rewrite say_say.
  - destruct s as [|c s].
    + exists [(Stdout, WorkspaceHeader); (Stdout, Blank)]. split; [reflexivity|].
      left. split; [reflexivity|].
      unfold WorkspaceStatus.show, bind, print, iter, ret. now rewrite say_say.
    + apply (Hhead AttributeError); auto.
      unfold WorkspaceStatus.show, bind, print, iter, ret. now rewrite say_say.
  - rewrite workspace_show_list.
    destruct (entries_split entries)
      as [(rows & -> & Hall) | (rows & bad & rest & -> & Hb & Hall)].
    + exists ((Stdout, WorkspaceHeader) :: (Stdout, Blank) :: map workspace_row rows).
      split; [simpl; apply rows_on_stdout|].
      left. split; [exact Hall|].
      now rewrite workspace_loop_rows, say_say.
    + exists ((Stdout, WorkspaceHeader) :: (Stdout, Blank) :: map workspace_row rows).
      split; [simpl; apply rows_on_stdout|].
      right. split; [exact Hall|]. exists AttributeError. split; [now left|].
      now rewrite (workspace_loop_stops rows bad rest _ Hb), say_say.
  - destruct fields as [|[k x] fields].
    + exists [(Stdout, WorkspaceHeader); (Stdout, Blank)]. split; [reflexivity|].
      left. split; [reflexivity|].
      unfold WorkspaceStatus.show, bind, print, iter, ret. now rewrite say_say.
    + apply (Hhead AttributeError); auto.
      unfold WorkspaceStatus.show, bind, print, iter, ret. now rewrite say_say.
Qed.

(** On a success envelope the script ends as its report ends. *)
Lemma window_main_on_success (stdout : string) (fields : list (string * json)) :
  json_loads stdout = Some (JDict fields) ->
  lookup "type" fields = Some (JStr "success") ->
  exists d,
    all_stdout d = true /\
    ((window_shaped (field fields "data" (JDict [])) = true /\
      WindowInfo.main (Completed 0 stdout) = (0%Z, d)) \/
     (window_shaped (field fields "data" (JDict [])) = false /\
      WindowInfo.main (Completed 0 stdout)
        = (1%Z, d ++ [(Stderr, ErrorException AttributeError)]))).
Proof.
  intros H Ht. rewrite (window_main_shows stdout fields H Ht).
  destruct (window_show_outcome (field fields "data" (JDict [])) fresh)
    as (d & Hd & [[Hs Hshow] | [Hs Hshow]]); exists d; (split; [exact Hd|]).
  - left. split; [exact Hs|]. now rewrite (report_ok _ d Hshow).
  - right. split; [exact Hs|].
    now rewrite (report_raises _ d AttributeError Hshow (or_introl eq_refl)).
Qed.

Lemma workspace_main_on_success (stdout : string) (fields : list (string * json)) :
  json_loads stdout = Some (JDict fields) ->
  lookup "type" fields = Some (JStr "success") ->
  exists d,
    all_stdout d = true /\
    ((reportable_listing (field fields "data" (JList [])) = true /\
      WorkspaceStatus.main (Completed 0 stdout) = (0%Z, d)) \/
     (reportable_listing (field fields "data" (JList [])) = false /\
      exists e, WorkspaceStatus.main (Completed 0 stdout)
                = (1%Z, d ++ [(Stderr, ErrorException e)]))).
Proof.
  intros H Ht. rewrite (workspace_main_shows stdout fields H Ht).
  destruct (workspace_show_outcome (field fields "data" (JList [])) fresh)
    as (d & Hd & [[Hs Hshow] | [Hs (e & He & Hshow)]]); exists d; (split; [exact Hd|]).
  - left. split; [exact Hs|]. now rewrite (report_ok _ d Hshow).
  - right. split; [exact Hs|]. exists e.
    now rewrite (report_raises _ d e Hshow He).
Qed.

(** X18. Every run of a command script, the launch cut short by Ctrl+C
    apart, ends in one of two ways: with status 0 and nothing on
    standard error, or with status 1 and exactly one line on standard
    error, which is the last line printed.  No exception escapes. *)
Theorem command_run_shape (r : ran) :
  r <> Failed KeyboardInterrupt ->
  ((exists out, WindowInfo.main r = (0%Z, out) /\ all_stdout out = true) \/
   (exists before t,
       WindowInfo.main r = (1%Z, before ++ [(Stderr, t)]) /\ all_stdout before = true))
  /\
  ((exists out, WorkspaceStatus.main r = (0%Z, out) /\ all_stdout out = true) \/
   (exists before t,
       WorkspaceStatus.main r = (1%Z, before ++ [(Stderr, t)]) /\
       all_stdout before = true)).
Proof.
  intros Hr. split.
  - destruct (window_main_cases r) as [(stdout & fields & -> & H & Ht) | [[t Hm] | ->]];
      [| right; exists [], t; split; [exact Hm | reflexivity] | congruence].
    destruct (window_main_on_success stdout fields H Ht)
      as (d & Hd & [[_ Hm] | [_ Hm]]).
    + left. now exists d.
    + right. now exists d, (ErrorException AttributeError).
  - destruct (workspace_main_cases r) as [(stdout & fields & -> & H & Ht) | [[t Hm] | ->]];
      [| right; exists [], t; split; [exact Hm | reflexivity] | congruence].
    destruct (workspace_main_on_success stdout fields H Ht)
      as (d & Hd & [[_ Hm] | [_ (e & Hm)]]).
    + left. now exists d.
    + right. now exists d, (ErrorException e).
Qed.

Lemma command_run_shape_witness :
  (exists before t,
      WindowInfo.main (Completed 3 "killed") = (1%Z, before ++ [(Stderr, t)]) /\
      all_stdout before = true) /\
  (exists before t,
      WorkspaceStatus.main (Completed 3 "killed") = (1%Z, before ++ [(Stderr, t)]) /\
      all_stdout before = true).
Proof.
  assert (Hr : Completed 3 "killed" <> Failed KeyboardInterrupt) by discriminate.
  destruct (command_run_shape (Completed 3 "killed") Hr) as [[Hw | Hw] [Hs | Hs]].
  - destruct Hw as (out & Hw & _). discriminate Hw.
  - destruct Hw as (out & Hw & _). discriminate Hw.
  - destruct Hs as (out & Hs & _). discriminate Hs.
  - split; assumption.
Defined.







(* ================================================================== *)
(** * White space around a line *)
(* ================================================================== *)

Lemma rstrip_idempotent (s : string) : rstrip (rstrip s) = rstrip s.
Proof.
  induction s as [|a rest IH]; [reflexivity|].
  cbn [rstrip]. cbv zeta.
  destruct (isspace (String a (rstrip rest))) eqn:E; [reflexivity|].
  cbn [rstrip]. cbv zeta. now rewrite IH, E.
Qed.

(** What [lstrip] leaves does not start with white space. *)
Lemma lstrip_no_space_upto (n : nat) (s : string) :
  (String.length s <= n)%nat -> starts_space (lstrip s) = false.
Proof.
  revert s. induction n as [|n IH]; intros s Hlen.
  - destruct s; [reflexivity | simpl in Hlen; lia].
  - destruct s as [|a rest]; [reflexivity|]. simpl in Hlen. cbn [lstrip].
    destruct (space1 a) eqn:E1; [apply IH; lia|].
    destruct rest as [|b rest']; [simpl; now rewrite E1|]. simpl in Hlen.
    destruct (space2 a b) eqn:E2; [apply IH; lia|].
    destruct rest' as [|c rest'']; [simpl; now rewrite E1, E2|]. simpl in Hlen.
    destruct (space3 a b c) eqn:E3; [apply IH; lia|].
    simpl. now rewrite E1, E2, E3.
Qed.

Lemma lstrip_no_space (s : string) : starts_space (lstrip s) = false.
Proof. apply (lstrip_no_space_upto (String.length s)). lia. Qed.

(** A text that does not start with white space is its own [lstrip]. *)
Lemma lstrip_fixed (s : string) : starts_space s = false -> lstrip s = s.
Proof.
  destruct s as [|a [|b [|c rest]]]; simpl; try reflexivity.
  - destruct (space1 a); [discriminate | reflexivity].
  - destruct (space1 a); [discriminate|].
    destruct (space2 a b); [discriminate | reflexivity].
  - destruct (space1 a); [discriminate|].
    destruct (space2 a b); [discriminate|].
    destruct (space3 a b c); [discriminate | reflexivity].
Qed.

(** A text that starts with white space still does with more behind. *)
Lemma starts_space_append (p v : string) :
  starts_space p = true -> starts_space (p ++ v)%string = true.
Proof.
  destruct p as [|a [|b [|c rest]]]; simpl; try discriminate.
  - intros H. rewrite orb_false_r in H. now rewrite H.
  - destruct (space1 a); [reflexivity|]. simpl.
    intros H. rewrite orb_false_r in H. now rewrite H.
  - auto.
Qed.

(** [rstrip] only takes from the tail. *)
Lemma rstrip_prefix (s : string) : exists v, s = (rstrip s ++ v)%string.
Proof.
  induction s as [|a rest [v IH]]; [now exists EmptyString|].
  cbn [rstrip]. cbv zeta.
  destruct (isspace (String a (rstrip rest))).
  - now exists (String a rest).
  - exists v. simpl. now rewrite <- IH.
Qed.

Lemma rstrip_no_space (s : string) :
  starts_space s = false -> starts_space (rstrip s) = false.
Proof.
  intros H. destruct (starts_space (rstrip s)) eqn:E; [|reflexivity].
  destruct (rstrip_prefix s) as [v Hv].
  apply (starts_space_append _ v) in E. rewrite <- Hv in E. congruence.
Qed.

Lemma strip_idempotent (s : string) : strip (strip s) = strip s.
Proof.
  unfold strip.
  rewrite (lstrip_fixed (rstrip (lstrip s))).
  - apply rstrip_idempotent.
  - apply rstrip_no_space, lstrip_no_space.
Qed.

(** X21. Only the stripped text of a line matters: a line with any
    white space before or after its record (blanks, tabs, the line
    terminator) is handled exactly as the bare record is, by both
    listeners and in every state of the session. *)
Theorem surrounding_whitespace_is_ignored (s : session) (now line : string) :
  WindowMonitor.step s (Line now (strip line)) = WindowMonitor.step s (Line now line) /\
  AutoTiler.step s (Line now (strip line)) = AutoTiler.step s (Line now line).
Proof.
  unfold WindowMonitor.step, AutoTiler.step, step,
    WindowMonitor.body, AutoTiler.body.
  rewrite (strip_idempotent line). split; reflexivity.
Qed.

(* ================================================================== *)
(** * The library functions at the edges *)
(* ================================================================== *)

(** [strip] takes the white space outside ASCII with the rest. *)
Lemma strip_unicode_space :
  strip padded_array_line = "[1,2]" /\
  strip padded_created_line = strip created_line /\
  strip (nbsp ++ "a" ++ nbsp ++ "b" ++ ideographic_space) = ("a" ++ nbsp ++ "b")%string /\
  whitespace_only (nbsp ++ " " ++ line_separator ++ ideographic_space ++ newline) = true.
Proof. repeat split. Qed.

(** So a padded list is decoded, and ends the session like any value
    that is not an object; a padded event is dispatched. *)
Lemma padded_lines :
  WindowMonitor.run (Session Running (listening MonitorBanner))
      [Line "10:00:00" padded_array_line; Line "10:00:01" created_line]
    = Session (Exited (Returned (Some 1%Z)))
        (say (listening MonitorBanner) [(Stderr, ErrorException AttributeError)]) /\
  AutoTiler.run (Session Running (listening TilerBanner))
      [Line "10:00:00" padded_array_line; Line "10:00:01" created_line]
    = Session (Exited (Returned (Some 1%Z)))
        (say (listening TilerBanner) [(Stderr, ErrorException AttributeError)]) /\
  WindowMonitor.step (Session Running (listening MonitorBanner))
      (Line "10:00:00" padded_created_line)
    = Session Running
        (say (listening MonitorBanner)
             [(Stdout, WindowCreated "10:00:00" (JStr "Notes") (JInt 2))]).
Proof. repeat split. Qed.

(** A float is false exactly when it rounds to zero: a zero literal, or
    one at most half the least double, [2 ^ -1075], which is
    2.47032822920623272...e-324. *)
Lemma float_truth :
  truthy (JFloat "0.0") = false /\
  truthy (JFloat "-0.000e12") = false /\
  truthy (JFloat "1e-400") = false /\
  truthy (JFloat "2e-324") = false /\
  truthy (JFloat "2.4703282292062327e-324") = false /\
  truthy (JFloat "2.4703282292062328e-324") = true /\
  truthy (JFloat "3e-324") = true /\
  truthy (JFloat "0.5") = true /\
  truthy (JFloat "-1E+400") = true /\
  truthy (JFloat "NaN") = true /\
  truthy (JFloat "-Infinity") = true.
Proof. vm_compute. repeat split. Qed.

(** A workspace whose [active] is a float that rounds to zero gets the
    hollow marker. *)
Lemma tiny_active_is_inactive :
  WorkspaceStatus.main
      (Completed 0 (wire "{'type':'success','data':[{'id':1,'active':1e-400},{'id':2,'active':0.1}]}"))
    = (0%Z,
       [(Stdout, WorkspaceHeader);
        (Stdout, Blank);
        (Stdout, WorkspaceLine false (JInt 1) (JStr "Unknown") (JInt 0) (JStr "?"));
        (Stdout, WorkspaceLine true (JInt 2) (JStr "Unknown") (JInt 0) (JStr "?"))]).
Proof. vm_compute. reflexivity. Qed.
